(** * readinglist.resource: the generic CRUD resource, embedded in Rocq

    Shallow embedding of [readinglist/resource.py]: the two error-mapping
    decorators, the [TimeStamp] schema node, the base schema, the
    query-string translator and the six end-points of [BaseResource].

    Python values are an inductive type, dictionaries are
    insertion-ordered association lists, a raised exception is the
    [Raises] outcome of a computation, and the end-points are state
    transformers over the request's mutable objects (the cornice error
    list, the response status, the backend store).

    The libraries the module calls ([ast], [json], [re], [colander],
    the storage backend) are not part of the source file.  What the code
    relies on is modelled next to the definition that uses it; where a
    library function is a parser of arbitrary text ([ast.literal_eval],
    [json.loads]) it is a section variable, so that the theorems hold
    for any behaviour of the parser. *)

From Stdlib Require Import ZArith NArith List String Ascii Bool Lia.
From Stdlib Require Import DecimalString Sorted.
Import ListNotations.
Local Open Scope string_scope.
Local Open Scope list_scope.

Set Implicit Arguments.
Set Warnings "-register-all".

(* ================================================================== *)
(** * Python values, exceptions and outcomes *)
(* ================================================================== *)

(** The Python objects that travel through the resource: JSON-shaped
    values.  Floats are not modelled. *)
Inductive pyval : Type :=
| VNone
| VBool (b : bool)
| VInt (n : Z)
| VStr (s : string)
| VList (l : list pyval)
| VDict (d : list (string * pyval)).

(** A record is a Python [dict] from field names to values. *)
Definition record := list (string * pyval).

(** The message carried by an exception, or by one entry of a colander
    error.  Colander messages keep the offending value instead of its
    rendering. *)
Inductive description : Type :=
| Text (s : string)
| Required
| NotANumber (val : pyval)
| NotAString (val : pyval)
| NotAMapping (val : pyval).

(** The exceptions that can cross the resource.  A Python subclass of
    [ValueError] ([UnicodeDecodeError], [json.JSONDecodeError]) is a
    [ValueError] here, since [except ValueError] catches it. *)
Inductive exn : Type :=
| ValueError (msg : string)
| SyntaxError (msg : string)
| TypeError (msg : string)
| Invalid (asdict : list (string * description))
| RecordNotFoundError (msg : string)
| OtherError (name : string).

Inductive outcome (A : Type) : Type :=
| Returns (a : A)
| Raises (e : exn).
Arguments Returns {A} a.
Arguments Raises {A} e.

Definition obind {A B} (c : outcome A) (k : A -> outcome B) : outcome B :=
  match c with
  | Returns a => k a
  | Raises e => Raises e
  end.

Declare Scope outcome_scope.
Delimit Scope outcome_scope with outcome.
Notation "x <- c ;; k" := (obind c (fun x => k))
  (at level 61, c at next level, right associativity) : outcome_scope.

(* ================================================================== *)
(** * Strings *)
(* ================================================================== *)

Module PyStr.

Definition code (c : ascii) : N := N_of_ascii c.

Definition between (lo hi : N) (c : ascii) : bool :=
  (lo <=? code c)%N && (code c <=? hi)%N.

(** [str.lower] on the ASCII letters. *)
Definition lower_char (c : ascii) : ascii :=
  if between 65 90 c then ascii_of_N (code c + 32) else c.

Fixpoint lower (s : string) : string :=
  match s with
  | EmptyString => EmptyString
  | String c r => String (lower_char c) (lower r)
  end.

(** [x in [s1, s2, ...]] for strings. *)
Definition mem (x : string) (l : list string) : bool :=
  existsb (String.eqb x) l.

(** [s.split(sep)] for a one-character separator: never empty, one
    more piece than there are separators. *)
Fixpoint split (sep : ascii) (s : string) : list string :=
  match s with
  | EmptyString => [EmptyString]
  | String c r =>
      if Ascii.eqb c sep then EmptyString :: split sep r
      else match split sep r with
           | h :: t => String c h :: t
           | [] => [String c EmptyString]
           end
  end.

(** The character classes [\s] and [\w] of [re] without the [UNICODE]
    flag, which are also the blanks of [str.strip] and the characters
    of a name.  They are the classes of the code on [plain] text; on
    other text the interpreter decides: Python 3 also takes the
    separators 0x1c to 0x1f and the blanks of Unicode for [\s], and the
    letters and digits of Unicode for [\w]. *)
Definition is_space (c : ascii) : bool :=
  between 9 13 c || (code c =? 32)%N.

Definition is_digit (c : ascii) : bool := between 48 57 c.

Definition is_word (c : ascii) : bool :=
  between 97 122 c || between 65 90 c || is_digit c || (code c =? 95)%N.

(** The characters every interpreter classifies alike: ASCII, without
    the separators 0x1c to 0x1f. *)
Definition is_plain (c : ascii) : bool :=
  (code c <? 28)%N || between 32 127 c.

(** Text made of such characters only. *)
Fixpoint plain (s : string) : bool :=
  match s with
  | EmptyString => true
  | String c r => is_plain c && plain r
  end.

Definition is_empty (s : string) : bool :=
  match s with EmptyString => true | String _ _ => false end.

(** The number written by a run of decimal digits, after [acc]. *)
Fixpoint digits (s : string) (acc : Z) : option Z :=
  match s with
  | EmptyString => Some acc
  | String c r =>
      if is_digit c
      then digits r (10 * acc + Z.of_N (code c - 48))%Z
      else None
  end.

End PyStr.

(* ================================================================== *)
(** * The query translator *)
(* ================================================================== *)

(** [request.GET] is a webob [MultiDict]: [items()] lists every
    (name, value) pair in query-string order, [get] answers with the
    last value given for the name. *)
Definition multidict := list (string * string).

Fixpoint multidict_get (d : multidict) (key default : string) : string :=
  match d with
  | [] => default
  | (k, v) :: rest =>
      multidict_get rest key (if String.eqb k key then v else default)
  end.

(** A filter is the tuple [(field, value, operator)], a sort directive
    the tuple [(field, direction)]. *)
Definition filter := (string * pyval * string)%type.
Definition sort_directive := (string * Z)%type.

(** The value is none of the eight boolean tokens. *)
Definition not_a_token (raw : string) : Prop :=
  PyStr.mem (PyStr.lower raw)
            ["on"; "true"; "yes"; "1"; "off"; "false"; "no"; "0"] = false.

Section QueryTranslator.

(** [ast.literal_eval] applied to source text. *)
Variable literal_text : string -> outcome pyval.

(** [self.known_fields] and [self.modified_field]. *)
Variable known_fields : list string.
Variable modified_field : string.

(** [ast.literal_eval(node_or_string)]: a string is parsed and
    evaluated; any other object that is not an AST node is a
    malformed node. *)
Definition literal_eval (node_or_string : pyval) : outcome pyval :=
  match node_or_string with
  | VStr s => literal_text s
  | _ => Raises (ValueError "malformed node or string")
  end.

(** [BaseResource.__decode_filter_value] *)
Definition __decode_filter_value (value : string) : outcome pyval :=
  let value :=
    if PyStr.mem (PyStr.lower value) ["on"; "true"; "yes"; "1"]
    then VBool true
    else if PyStr.mem (PyStr.lower value) ["off"; "false"; "no"; "0"]
    then VBool false
    else VStr value in
  match literal_eval value with
  | Raises (ValueError _) => Returns value
  | r => r
  end.

(** The body of the [for] loop of [_extract_filters], for one decoded
    parameter. *)
Definition append_filters (filters : list filter) (param : string)
           (value : pyval) : list filter :=
  let filters :=
    if PyStr.mem param known_fields
    then filters ++ [(param, value, "==")] else filters in
  if String.eqb param "since"
  then filters ++ [(modified_field, value, ">=")] else filters.

(** The filters one decoded parameter contributes. *)
Definition param_filters (param : string) (value : pyval) : list filter :=
  append_filters [] param value.

Fixpoint extract_filters_loop (items : multidict) (filters : list filter)
  : outcome (list filter) :=
  match items with
  | [] => Returns filters
  | (param, value) :: rest =>
      (value <- __decode_filter_value value ;;
       extract_filters_loop rest (append_filters filters param value))%outcome
  end.

(** [BaseResource._extract_filters] *)
Definition _extract_filters (queryparams : multidict)
  : outcome (list filter) :=
  extract_filters_loop queryparams [].

End QueryTranslator.

(** Regular expressions of the shape the resource uses, and the
    search [re.match] makes for them: anchored at the start of the text
    only, quantifiers greedy, alternatives tried in order until the
    rest of the pattern matches. *)
Module Re.

Inductive regex : Type :=
| Opt (class : ascii -> bool)
| Plus (class : ascii -> bool)
| Cat (r1 r2 : regex)
| Group (r : regex).

Fixpoint take (n : nat) (s : string) : string :=
  match n, s with
  | S n', String c r => String c (take n' r)
  | _, _ => EmptyString
  end.

(** The text between the start of [s] and its suffix [rest]. *)
Definition consumed (s rest : string) : string :=
  take (String.length s - String.length rest) s.

Definition first {A} (a b : option A) : option A :=
  match a with
  | Some _ => a
  | None => b
  end.

(** [search r s groups k] matches [r] at the start of [s]; [k] matches
    what follows [r] in the pattern, on the rest of the text and with
    the groups closed so far.  When [k] fails the next alternative of
    [r] is tried. *)
Fixpoint search (r : regex) (s : string) (groups : list string)
         (k : string -> list string -> option (list string))
  : option (list string) :=
  match r with
  | Opt class =>
      match s with
      | String c rest =>
          if class c then first (k rest groups) (k s groups) else k s groups
      | EmptyString => k s groups
      end
  | Plus class =>
      (fix more (s : string) : option (list string) :=
         match s with
         | String c rest =>
             if class c then first (more rest) (k rest groups) else None
         | EmptyString => None
         end) s
  | Cat r1 r2 => search r1 s groups (fun s' groups' => search r2 s' groups' k)
  | Group r =>
      search r s groups (fun s' groups' => k s' (groups' ++ [consumed s s']))
  end.

(** [re.match(pattern, s)], as [m.groups()] when there is a match. *)
Definition re_match (pattern : regex) (s : string) : option (list string) :=
  search pattern s [] (fun _ groups => Some groups).

End Re.

(** The character class [[\-+]]. *)
Definition is_sign (c : ascii) : bool := Ascii.eqb c "-" || Ascii.eqb c "+".

(** The pattern [\s?([\-+]?)(\w+)\s?] of [_extract_sorting]. *)
Definition sort_pattern : Re.regex :=
  Re.Cat (Re.Opt PyStr.is_space)
         (Re.Cat (Re.Group (Re.Opt is_sign))
                 (Re.Cat (Re.Group (Re.Plus PyStr.is_word))
                         (Re.Opt PyStr.is_space))).

(** The body of the [for] loop of [_extract_sorting]. *)
Definition append_sorting (sorting : list sort_directive) (field : string)
  : list sort_directive :=
  match Re.re_match sort_pattern field with
  | Some [order; field] =>
      let direction := if String.eqb order "-" then (-1)%Z else 1%Z in
      sorting ++ [(field, direction)]
  | _ => sorting
  end.

(** What the search for [sort_pattern] comes to: skip one blank, take
    one sign, take the word characters that follow. *)
Module SortPattern.

Definition skip_space (s : string) : string :=
  match s with
  | String c r => if PyStr.is_space c then r else s
  | EmptyString => s
  end.

Definition sign (s : string) : string * string :=
  match s with
  | String c r =>
      if is_sign c then (String c EmptyString, r) else (EmptyString, s)
  | EmptyString => (EmptyString, s)
  end.

Fixpoint word (s : string) : string :=
  match s with
  | String c r => if PyStr.is_word c then String c (word r) else EmptyString
  | EmptyString => EmptyString
  end.

Fixpoint after_word (s : string) : string :=
  match s with
  | String c r => if PyStr.is_word c then after_word r else s
  | EmptyString => s
  end.

Definition scan (field : string) : option (list string) :=
  let (order, rest) := sign (skip_space field) in
  let w := word rest in
  if PyStr.is_empty w then None else Some [order; w].

End SortPattern.

(** [BaseResource._extract_sorting] *)
Definition _extract_sorting (queryparams : multidict) : list sort_directive :=
  let specified := PyStr.split "," (multidict_get queryparams "sort" "") in
  fold_left append_sorting specified [].

(** [ast.literal_eval] on source text, for the texts whose evaluation
    does not depend on the version of Python: a decimal integer without
    leading zeros evaluates to the integer; [True], [False] and [None]
    to the constants; another bare name is parsed and is a malformed
    node ([ValueError]); the empty string, a bare keyword, and two or
    more names separated by single blanks are not expressions
    ([SyntaxError]).  [eval] answers [None] for any other text. *)
Module Literal.

Definition decimal (s : string) : option Z :=
  match s with
  | EmptyString => None
  | String c r =>
      if Ascii.eqb c "0" && negb (PyStr.is_empty r) then None
      else PyStr.digits s 0%Z
  end.

Fixpoint all_word (s : string) : bool :=
  match s with
  | EmptyString => true
  | String c r => PyStr.is_word c && all_word r
  end.

Definition is_identifier (s : string) : bool :=
  match s with
  | EmptyString => false
  | String c _ => negb (PyStr.is_digit c) && all_word s
  end.

(** The keywords of every version of the language. *)
Definition keywords : list string :=
  ["and"; "as"; "assert"; "break"; "class"; "continue"; "def"; "del";
   "elif"; "else"; "except"; "finally"; "for"; "from"; "global"; "if";
   "import"; "in"; "is"; "lambda"; "not"; "or"; "pass"; "raise";
   "return"; "try"; "while"; "with"; "yield"].

(** Words that are keywords in some versions only. *)
Definition sometimes_keywords : list string :=
  ["exec"; "print"; "nonlocal"; "async"; "await"].

Definition is_name (s : string) : bool :=
  is_identifier s && negb (PyStr.mem s keywords)
  && negb (PyStr.mem s sometimes_keywords).

Definition eval (s : string) : option (outcome pyval) :=
  if PyStr.is_empty s
  then Some (Raises (SyntaxError "unexpected EOF while parsing"))
  else match decimal s with
  | Some n => Some (Returns (VInt n))
  | None =>
      if String.eqb s "True" then Some (Returns (VBool true))
      else if String.eqb s "False" then Some (Returns (VBool false))
      else if String.eqb s "None" then Some (Returns VNone)
      else if PyStr.mem s keywords
      then Some (Raises (SyntaxError "invalid syntax"))
      else if is_name s
      then Some (Raises (ValueError "malformed node or string"))
      else match PyStr.split " " s with
           | (_ :: _ :: _) as names =>
               if forallb is_name names
               then Some (Raises (SyntaxError "invalid syntax"))
               else None
           | _ => None
           end
  end.

(** The evaluator handed to the resource in the concrete runs. *)
Definition literal_text (s : string) : outcome pyval :=
  match eval s with
  | Some r => r
  | None => Raises (OtherError "text outside the modelled literals")
  end.

End Literal.


(* ================================================================== *)
(** * Dictionaries *)
(* ================================================================== *)

(** Python [dict] operations on records.  Keys keep the position of
    their first insertion. *)
Module PyDict.

Fixpoint get (d : record) (key : string) : option pyval :=
  match d with
  | [] => None
  | (k, v) :: rest => if String.eqb k key then Some v else get rest key
  end.

Fixpoint remove (d : record) (key : string) : record :=
  match d with
  | [] => []
  | (k, v) :: rest =>
      if String.eqb k key then remove rest key else (k, v) :: remove rest key
  end.

(** [d[key] = value] *)
Fixpoint set (d : record) (key : string) (value : pyval) : record :=
  match d with
  | [] => [(key, value)]
  | (k, v) :: rest =>
      if String.eqb k key then (k, value) :: remove rest key
      else (k, v) :: set rest key value
  end.

(** [d.update] called with the items of [other] as keyword arguments. *)
Definition update (d other : record) : record :=
  fold_left (fun acc kv => set acc (fst kv) (snd kv)) other d.

Definition keys (d : record) : list string := map fst d.

(** The items of [d] whose key is one of [names]. *)
Definition restrict (names : list string) (d : record) : record :=
  List.filter (fun kv => PyStr.mem (fst kv) names) d.

(** Truth value of an object: [not x] is [negb (truthy x)]. *)
Definition truthy (v : pyval) : bool :=
  match v with
  | VNone => false
  | VBool b => b
  | VInt n => negb (n =? 0)%Z
  | VStr s => negb (PyStr.is_empty s)
  | VList l => match l with [] => false | _ => true end
  | VDict d => match d with [] => false | _ => true end
  end.

(** The integer a number stands for in a comparison: [True] is 1 and
    [False] is 0. *)
Definition as_int (v : pyval) : option Z :=
  match v with
  | VInt n => Some n
  | VBool b => Some (if b then 1 else 0)%Z
  | _ => None
  end.

(** [a == b]: numbers by value, strings and [None] by identity of
    content, lists item by item, dictionaries key by key. *)
Fixpoint eq (a b : pyval) {struct a} : bool :=
  match a, b with
  | VNone, VNone => true
  | (VBool _ | VInt _), (VBool _ | VInt _) =>
      match as_int a, as_int b with
      | Some m, Some n => (m =? n)%Z
      | _, _ => false
      end
  | VStr s, VStr t => String.eqb s t
  | VList l, VList m =>
      (fix items (l m : list pyval) : bool :=
         match l, m with
         | [], [] => true
         | x :: l', y :: m' => eq x y && items l' m'
         | _, _ => false
         end) l m
  | VDict d, VDict e =>
      (List.length d =? List.length e)%nat
      && (fix members (d : list (string * pyval)) : bool :=
            match d with
            | [] => true
            | (k, x) :: d' =>
                match get e k with
                | Some y => eq x y && members d'
                | None => false
                end
            end) d
  | _, _ => false
  end.

End PyDict.

(** [a == b] for two lists of filter tuples. *)
Fixpoint filters_eq (a b : list (string * pyval * string)) : bool :=
  match a, b with
  | [], [] => true
  | (f, v, op) :: a', (g, w, oq) :: b' =>
      String.eqb f g && PyDict.eq v w && String.eqb op oq && filters_eq a' b'
  | _, _ => false
  end.

(* ================================================================== *)
(** * The colander schema nodes the resource is built from *)
(* ================================================================== *)

(** Schema nodes as colander 1.0 deserializes them: the methods
    [SchemaNode.deserialize], [Integer.deserialize],
    [String.deserialize] and [Mapping.deserialize], and the override of
    the first by [TimeStamp]. *)
Module Colander.

(** What a node deserializes to: a value, or the [colander.drop]
    marker that removes the field from the enclosing mapping. *)
Inductive appstruct : Type :=
| drop
| Val (v : pyval).

(** The [missing] argument of a node: [required] when not given. *)
Inductive missing_value : Type :=
| required
| Missing (a : appstruct).

(** The class of a node decides which [deserialize] method runs. *)
Inductive node_class : Type :=
| SchemaNodeClass
| TimeStampClass.

(** A schema node.  [typ] is [self.typ.deserialize(self, cstruct)]: it
    answers [None] for [colander.null].  A [cstruct] handed to a node
    is likewise [None] when it is [colander.null]. *)
Record SchemaNode : Type := {
  class : node_class;
  name : string;
  missing : missing_value;
  typ : pyval -> outcome (option pyval)
}.

(** The [required] property: [self.missing is required]. *)
Definition is_required (self : SchemaNode) : bool :=
  match missing self with required => true | Missing _ => false end.

(** The value of a node that got [colander.null]. *)
Definition when_null (self : SchemaNode) : outcome appstruct :=
  match missing self with
  | required => Raises (Invalid [(name self, Required)])
  | Missing a => Returns a
  end.

(** [colander.SchemaNode.deserialize] for a node without preparer and
    validator. *)
Definition SchemaNode_deserialize (self : SchemaNode)
           (cstruct : option pyval) : outcome appstruct :=
  match cstruct with
  | None => when_null self
  | Some c =>
      (a <- typ self c ;;
       match a with
       | None => when_null self
       | Some v => Returns (Val v)
       end)%outcome
  end.

Fixpoint rstrip (s : string) : string :=
  match s with
  | EmptyString => EmptyString
  | String c r =>
      let r' := rstrip r in
      if PyStr.is_empty r' && PyStr.is_space c then EmptyString
      else String c r'
  end.

Fixpoint lstrip (s : string) : string :=
  match s with
  | String c r => if PyStr.is_space c then lstrip r else s
  | EmptyString => s
  end.

Definition unsigned (s : string) : option Z :=
  if PyStr.is_empty s then None else PyStr.digits s 0%Z.

(** [int(x)]: an integer is itself, a boolean is 0 or 1, text is read
    as blanks, an optional sign and ASCII decimal digits; [None] when
    [int] raises.  This is [int] on [PyStr.plain] text without
    underscores; Python 3 also reads digits grouped by underscores and
    the decimal digits of other scripts. *)
Definition int (x : pyval) : option Z :=
  match x with
  | VInt n => Some n
  | VBool b => Some (if b then 1 else 0)%Z
  | VStr s =>
      match lstrip (rstrip s) with
      | String "-" r => option_map Z.opp (unsigned r)
      | String "+" r => unsigned r
      | t => unsigned t
      end
  | _ => None
  end.

(** [colander.Integer().deserialize(node, cstruct)]: a false value
    other than zero ([cstruct != 0 and not cstruct]) is
    [colander.null]; otherwise [int(cstruct)], or the error of the
    node. *)
Definition Integer (node_name : string) (cstruct : pyval)
  : outcome (option pyval) :=
  if negb (PyDict.eq cstruct (VInt 0)) && negb (PyDict.truthy cstruct)
  then Returns None
  else match int cstruct with
       | Some n => Returns (Some (VInt n))
       | None => Raises (Invalid [(node_name, NotANumber cstruct)])
       end.

(** [colander.String().deserialize(node, cstruct)], no encoding: a
    false value is [colander.null], a string is itself, and any other
    object is the error of the node. *)
Definition String_ (node_name : string) (cstruct : pyval)
  : outcome (option pyval) :=
  if negb (PyDict.truthy cstruct) then Returns None
  else match cstruct with
       | VStr s => Returns (Some (VStr s))
       | other => Raises (Invalid [(node_name, NotAString other)])
       end.

(** [TimeStamp.deserialize]; [now] is the value [TimeStamp.now()]
    returns, [int(time.time())]. *)
Definition TimeStamp_deserialize (now : Z) (self : SchemaNode)
           (cstruct : option pyval) : outcome appstruct :=
  let cstruct :=
    match cstruct with
    | None => if is_required self then Some (VInt now) else cstruct
    | Some _ => cstruct
    end in
  SchemaNode_deserialize self cstruct.

(** [node.deserialize(cstruct)], dispatched on the class of the node. *)
Definition deserialize (now : Z) (self : SchemaNode)
           (cstruct : option pyval) : outcome appstruct :=
  match class self with
  | SchemaNodeClass => SchemaNode_deserialize self cstruct
  | TimeStampClass => TimeStamp_deserialize now self cstruct
  end.

(** State of the loop of [Mapping._impl]: what is left of the copy of
    the input, the collected errors, and the result. *)
Record impl_state : Type := {
  value : record;
  error : option (list (string * description));
  result : record
}.

(** One round of the loop over [node.children]: pop the field, run
    the child, record its error or store its value.  The children of
    this resource have no [default], and a JSON body holds no
    [colander.drop], so the guard in front of the callback is never
    taken. *)
Definition impl_step (now : Z) (st : impl_state) (subnode : SchemaNode)
  : outcome impl_state :=
  let subval := PyDict.get (value st) (name subnode) in
  let rest := PyDict.remove (value st) (name subnode) in
  match deserialize now subnode subval with
  | Raises (Invalid e) =>
      Returns {| value := rest;
                 error := Some (match error st with
                                | None => e
                                | Some es => es ++ e
                                end);
                 result := result st |}
  | Raises other => Raises other
  | Returns drop =>
      Returns {| value := rest; error := error st; result := result st |}
  | Returns (Val sub_result) =>
      Returns {| value := rest; error := error st;
                 result := PyDict.set (result st) (name subnode) sub_result |}
  end.

Fixpoint impl_loop (now : Z) (children : list SchemaNode) (st : impl_state)
  : outcome impl_state :=
  match children with
  | [] => Returns st
  | subnode :: rest =>
      (st' <- impl_step now st subnode ;; impl_loop now rest st')%outcome
  end.

(** Two runs of the loop on inputs that agree on the declared names. *)
Definition agree (names : list string) (a b : impl_state) : Prop :=
  (forall k, In k names -> PyDict.get (value a) k = PyDict.get (value b) k)
  /\ error a = error b /\ result a = result b.

Definition similar (names : list string) (a b : outcome impl_state) : Prop :=
  match a, b with
  | Returns x, Returns y => agree names x y
  | Raises e1, Raises e2 => e1 = e2
  | _, _ => False
  end.

(** The errors collected so far by the loop. *)
Definition collected (st : impl_state) : list (string * description) :=
  match error st with
  | Some e => e
  | None => []
  end.

(** The error items the child [c] raises on its field of [d], if it
    raises a validation error. *)
Definition child_error (now : Z) (d : record) (c : SchemaNode)
  : list (string * description) :=
  match deserialize now c (PyDict.get d (name c)) with
  | Raises (Invalid e) => e
  | _ => []
  end.

(** [MappingSchema().deserialize(cstruct)] for the root node of a
    schema: [Mapping._validate], the loop, unknown keys ignored (the
    default of [Mapping]), then the collected error if any. *)
Definition Mapping_deserialize (now : Z) (children : list SchemaNode)
           (cstruct : pyval) : outcome record :=
  match cstruct with
  | VDict d =>
      (st <- impl_loop now children
               {| value := d; error := None; result := [] |} ;;
       match error st with
       | Some e => Raises (Invalid e)
       | None => Returns (result st)
       end)%outcome
  | other => Raises (Invalid [("", NotAMapping other)])
  end.

End Colander.

(* ================================================================== *)
(** * The resource *)
(* ================================================================== *)

(** An instance of [class TimeStamp(colander.SchemaNode)]: the schema
    type is [colander.Integer]. *)
Definition TimeStamp (name : string) (missing : Colander.missing_value)
  : Colander.SchemaNode :=
  {| Colander.class := Colander.TimeStampClass;
     Colander.name := name;
     Colander.missing := missing;
     Colander.typ := Colander.Integer name |}.

(** The two class attributes of [RessourceSchema]. *)
Definition _id : Colander.SchemaNode :=
  {| Colander.class := Colander.SchemaNodeClass;
     Colander.name := "_id";
     Colander.missing := Colander.Missing Colander.drop;
     Colander.typ := Colander.String_ "_id" |}.

Definition last_modified : Colander.SchemaNode :=
  TimeStamp "last_modified" Colander.required.

(** [class RessourceSchema(colander.MappingSchema)]: the children, in
    declaration order. *)
Definition RessourceSchema : list Colander.SchemaNode :=
  [_id; last_modified].

(** The class attributes of [BaseResource]. *)
Record BaseResource : Type := {
  mapping : list Colander.SchemaNode;
  id_field : string;
  modified_field : string
}.

(** A resource class whose schema inherits from [RessourceSchema] and
    declares the fields [extra]; [BaseResource] itself has none. *)
Definition resource_with (extra : list Colander.SchemaNode)
  : BaseResource :=
  {| mapping := RessourceSchema ++ extra;
     id_field := "_id";
     modified_field := "last_modified" |}.

(** [self.known_fields], computed in [__init__]. *)
Definition known_fields (self : BaseResource) : list string :=
  map Colander.name (mapping self).

(** What a handler reads from [self.request]: the query string, the
    body, [matchdict['id']] and the authenticated user.  [now] is what
    [int(time.time())] gives while the request is served; with the base
    schema a handler reads the clock at most once. *)
Record Request : Type := {
  GET : multidict;
  body : string;
  matchdict_id : string;
  authenticated_userid : string;
  now : Z
}.

(** One entry of [request.errors]: location, name, description. *)
Definition error_entry := (string * string * description)%type.

(** The calls made to the backend, in order. *)
Inductive backend_call : Type :=
| GetAll (filters : list filter) (sorting : list sort_directive)
| Get (record_id : string)
| Create (new_record : record)
| Update (record_id : string) (new_record : record)
| Delete (record_id : string).

(** [bytes.decode('utf-8')]: text is kept in its UTF-8 encoding, so
    decoding is the check that the bytes are well-formed UTF-8 (the
    check Python 3 makes). *)
Module Utf8.

Definition cont (c : ascii) : bool := PyStr.between 128 191 c.

Definition second3 (c0 c1 : ascii) : bool :=
  if (PyStr.code c0 =? 224)%N then PyStr.between 160 191 c1
  else if (PyStr.code c0 =? 237)%N then PyStr.between 128 159 c1
  else cont c1.

Definition second4 (c0 c1 : ascii) : bool :=
  if (PyStr.code c0 =? 240)%N then PyStr.between 144 191 c1
  else if (PyStr.code c0 =? 244)%N then PyStr.between 128 143 c1
  else cont c1.

Fixpoint valid (s : string) : bool :=
  match s with
  | EmptyString => true
  | String c0 r0 =>
      if PyStr.between 0 127 c0 then valid r0
      else match r0 with
      | EmptyString => false
      | String c1 r1 =>
          if PyStr.between 194 223 c0 then cont c1 && valid r1
          else match r1 with
          | EmptyString => false
          | String c2 r2 =>
              if PyStr.between 224 239 c0
              then second3 c0 c1 && cont c2 && valid r2
              else match r2 with
              | EmptyString => false
              | String c3 r3 =>
                  PyStr.between 240 244 c0 && second4 c0 c1
                  && cont c2 && cont c3 && valid r3
              end
          end
      end
  end.

Definition decode (raw : string) : outcome string :=
  if valid raw then Returns raw
  else Raises (ValueError "'utf8' codec can't decode bytes").

End Utf8.

Section Resource.

(** [ast.literal_eval] and [json.loads] on text. *)
Variable literal_text : string -> outcome pyval.
Variable json_loads : string -> outcome pyval.

(** The storage backend behind [request.db]: its state and its five
    operations.  Each receives [resource=self] and [user_id]. *)
Variable store : Type.
Variable db_get_all :
  list filter -> list sort_directive -> BaseResource -> string ->
  store -> outcome (list record) * store.
Variable db_get :
  string -> BaseResource -> string -> store -> outcome record * store.
Variable db_create :
  record -> BaseResource -> string -> store -> outcome record * store.
Variable db_update :
  string -> record -> BaseResource -> string -> store ->
  outcome record * store.
Variable db_delete :
  string -> BaseResource -> string -> store -> outcome record * store.

(** The objects a handler mutates: [request.errors] with its
    [status], the backend, [self.record]; [calls] is the trace of the
    backend calls made so far. *)
Record world : Type := {
  errors : list error_entry;
  status : option string;
  db : store;
  self_record : option record;
  calls : list backend_call
}.

(** A method of the resource: it reads and updates the world and
    either returns or raises.  What was done before a raise stays
    done. *)
Definition M (A : Type) : Type := world -> outcome A * world.

Definition ret {A} (a : A) : M A := fun w => (Returns a, w).

Definition bind {A B} (c : M A) (k : A -> M B) : M B :=
  fun w =>
    match c w with
    | (Returns a, w') => k a w'
    | (Raises e, w') => (Raises e, w')
    end.

Definition lift {A} (c : outcome A) : M A := fun w => (c, w).

Declare Scope method_scope.
Delimit Scope method_scope with method.
Notation "x <- c ;; k" := (bind c (fun x => k))
  (at level 61, c at next level, right associativity) : method_scope.
Notation "c ;; k" := (bind c (fun _ => k))
  (at level 61, right associativity) : method_scope.
Local Open Scope method_scope.

(** [self.request.errors.add(location, name, description)] *)
Definition errors_add (location name : string) (d : description) : M unit :=
  fun w => (Returns tt,
            {| errors := errors w ++ [(location, name, d)];
               status := status w; db := db w;
               self_record := self_record w; calls := calls w |}).

(** [self.request.errors.status = s] *)
Definition set_status (s : string) : M unit :=
  fun w => (Returns tt,
            {| errors := errors w; status := Some s; db := db w;
               self_record := self_record w; calls := calls w |}).

(** [self.record = r] *)
Definition set_record (r : record) : M unit :=
  fun w => (Returns tt,
            {| errors := errors w; status := status w; db := db w;
               self_record := Some r; calls := calls w |}).

(** A call [self.db.op(...)]: logged, then run on the store. *)
Definition db_call {A} (c : backend_call)
           (op : store -> outcome A * store) : M A :=
  fun w =>
    let (r, s) := op (db w) in
    (r, {| errors := errors w; status := status w; db := s;
           self_record := self_record w; calls := calls w ++ [c] |}).

(** [exists_or_404()] applied to [view]. *)
Definition exists_or_404 (view : M pyval) : M pyval :=
  fun w =>
    match view w with
    | (Raises (RecordNotFoundError e), w') =>
        (errors_add "path" "id" (Text e) ;;
         set_status "404 Resource Not Found" ;;
         ret VNone) w'
    | other => other
    end.

(** The [for field, error in e.asdict().items()] loop. *)
Fixpoint add_body_errors (items : list (string * description)) : M unit :=
  match items with
  | [] => ret tt
  | (field, error) :: rest =>
      errors_add "body" field error ;; add_body_errors rest
  end.

(** [validates_or_400()] applied to [view]. *)
Definition validates_or_400 (view : M pyval) : M pyval :=
  fun w =>
    match view w with
    | (Raises (ValueError e), w') =>
        (errors_add "body" "body" (Text e) ;;
         set_status "400 Bad Request" ;;
         ret VNone) w'
    | (Raises (Invalid asdict), w') =>
        (add_body_errors asdict ;;
         set_status "400 Bad Request" ;;
         ret VNone) w'
    | other => other
    end.

Variable self : BaseResource.
Variable request : Request.

(** [BaseResource.deserialize] *)
Definition deserialize (raw : string) : outcome pyval :=
  (raw <- Utf8.decode raw ;;
   if PyStr.is_empty raw then Returns (VDict []) else json_loads raw)%outcome.

(** [BaseResource.validate] *)
Definition validate (new_record : pyval) : outcome record :=
  Colander.Mapping_deserialize (now request) (mapping self) new_record.

(** [BaseResource.collection_get] *)
Definition collection_get : M pyval :=
  filters <- lift (_extract_filters literal_text (known_fields self)
                                    (modified_field self) (GET request)) ;;
  let sorting := _extract_sorting (GET request) in
  records <- db_call (GetAll filters sorting)
               (db_get_all filters sorting self
                           (authenticated_userid request)) ;;
  let meta := VDict [("total", VInt (Z.of_nat (List.length records)))] in
  let body := VDict [("items", VList (map VDict records)); ("meta", meta)] in
  ret body.

(** [BaseResource.collection_post] *)
Definition collection_post : M pyval :=
  validates_or_400
    (new_record <- lift (deserialize (body request)) ;;
     new_record <- lift (validate new_record) ;;
     created <- db_call (Create new_record)
                  (db_create new_record self
                             (authenticated_userid request)) ;;
     set_record created ;;
     ret (VDict created)).

(** [BaseResource.get] *)
Definition get : M pyval :=
  exists_or_404
    (let record_id := matchdict_id request in
     found <- db_call (Get record_id)
                (db_get record_id self (authenticated_userid request)) ;;
     set_record found ;;
     ret (VDict found)).

(** [BaseResource.put] *)
Definition put : M pyval :=
  exists_or_404
    (validates_or_400
       (let record_id := matchdict_id request in
        new_record <- lift (deserialize (body request)) ;;
        new_record <- lift (validate new_record) ;;
        updated <- db_call (Update record_id new_record)
                     (db_update record_id new_record self
                                (authenticated_userid request)) ;;
        set_record updated ;;
        ret (VDict updated))).

(** [updated.update] with the body as keyword arguments: the body
    has to be a mapping. *)
Definition update_kwargs (updated : record) (modified : pyval)
  : outcome record :=
  match modified with
  | VDict d => Returns (PyDict.update updated d)
  | _ => Raises (TypeError "argument after ** must be a mapping")
  end.

(** [BaseResource.patch] *)
Definition patch : M pyval :=
  exists_or_404
    (validates_or_400
       (let record_id := matchdict_id request in
        found <- db_call (Get record_id)
                   (db_get record_id self (authenticated_userid request)) ;;
        set_record found ;;
        modified <- lift (deserialize (body request)) ;;
        updated <- lift (update_kwargs found modified) ;;
        let updated :=
          PyDict.set updated (modified_field self) (VInt (now request)) in
        updated <- lift (validate (VDict updated)) ;;
        stored <- db_call (Update record_id updated)
                    (db_update record_id updated self
                               (authenticated_userid request)) ;;
        ret (VDict stored))).

(** [BaseResource.delete] *)
Definition delete : M pyval :=
  exists_or_404
    (let record_id := matchdict_id request in
     deleted <- db_call (Delete record_id)
                  (db_delete record_id self (authenticated_userid request)) ;;
     set_record deleted ;;
     ret (VDict deleted)).

End Resource.

(* ================================================================== *)
(** * Concrete collaborators *)
(* ================================================================== *)

(** [json.loads] on text, for JSON made of objects, arrays, strings
    without escapes, integers, [true], [false] and [null].  A number
    with a fraction or an exponent, a string with an escape and the
    constants [NaN] and [Infinity] are [Unsupported]: the reader does
    not say what they decode to.  The message of a [ValueError] is
    worded by the interpreter, with the position of the fault; the two
    messages of [loads] stand for it, and no statement quotes them. *)
Module Json.

Inductive parsed : Type :=
| Parsed (v : pyval) (rest : string)
| Malformed
| Unsupported.

Definition dquote : ascii := "034"%char.

Definition quoted (s : string) : string :=
  String dquote (s ++ String dquote EmptyString).

Definition is_ws (c : ascii) : bool :=
  let n := PyStr.code c in
  ((n =? 32) || (n =? 9) || (n =? 10) || (n =? 13))%N.

Fixpoint ws (s : string) : string :=
  match s with
  | String c r => if is_ws c then ws r else s
  | EmptyString => s
  end.

(** The characters of a string literal after its opening quote. *)
Fixpoint chars (s : string) : parsed :=
  match s with
  | EmptyString => Malformed
  | String c r =>
      if Ascii.eqb c dquote then Parsed (VStr EmptyString) r
      else if Ascii.eqb c "\" then Unsupported
      else if (PyStr.code c <? 32)%N then Malformed
      else match chars r with
           | Parsed (VStr t) r' => Parsed (VStr (String c t)) r'
           | other => other
           end
  end.

Fixpoint span_digits (s : string) : string * string :=
  match s with
  | String c r =>
      if PyStr.is_digit c
      then let (d, r') := span_digits r in (String c d, r')
      else (EmptyString, s)
  | EmptyString => (EmptyString, s)
  end.

Definition natural (negative : bool) (s : string) : parsed :=
  let (d, r) := span_digits s in
  match d with
  | EmptyString => Malformed
  | String c d' =>
      if Ascii.eqb c "0" && negb (PyStr.is_empty d') then Malformed
      else match r with
           | String "." _ | String "e" _ | String "E" _ => Unsupported
           | _ => match PyStr.digits d 0%Z with
                  | Some n => Parsed (VInt (if negative then - n else n)) r
                  | None => Malformed
                  end
           end
  end.

Fixpoint strip_prefix (p s : string) : option string :=
  match p, s with
  | EmptyString, _ => Some s
  | String a p', String b s' =>
      if Ascii.eqb a b then strip_prefix p' s' else None
  | String _ _, EmptyString => None
  end.

Definition starts_with (p s : string) : bool :=
  match strip_prefix p s with Some _ => true | None => false end.

Definition scalar (s : string) : parsed :=
  match strip_prefix "null" s, strip_prefix "true" s,
        strip_prefix "false" s with
  | Some r, _, _ => Parsed VNone r
  | _, Some r, _ => Parsed (VBool true) r
  | _, _, Some r => Parsed (VBool false) r
  | _, _, _ =>
      if starts_with "NaN" s || starts_with "Infinity" s
         || starts_with "-Infinity" s
      then Unsupported
      else match s with
           | String "-" r => natural true r
           | String c r => if Ascii.eqb c dquote then chars r
                           else natural false s
           | EmptyString => Malformed
           end
  end.

Fixpoint value (fuel : nat) (s : string) {struct fuel} : parsed :=
  match fuel with
  | O => Unsupported
  | S fuel =>
      match ws s with
      | String "{" r =>
          match ws r with
          | String "}" r' => Parsed (VDict []) r'
          | r' => members fuel r' []
          end
      | String "[" r =>
          match ws r with
          | String "]" r' => Parsed (VList []) r'
          | r' => elements fuel r' []
          end
      | t => scalar t
      end
  end
with elements (fuel : nat) (s : string) (acc : list pyval) {struct fuel}
  : parsed :=
  match fuel with
  | O => Unsupported
  | S fuel =>
      match value fuel s with
      | Parsed v r =>
          match ws r with
          | String "," r' => elements fuel r' (acc ++ [v])
          | String "]" r' => Parsed (VList (acc ++ [v])) r'
          | _ => Malformed
          end
      | other => other
      end
  end
with members (fuel : nat) (s : string) (acc : record) {struct fuel}
  : parsed :=
  match fuel with
  | O => Unsupported
  | S fuel =>
      match ws s with
      | String c r =>
          if Ascii.eqb c dquote
          then match chars r with
               | Parsed (VStr k) r1 =>
                   match ws r1 with
                   | String ":" r2 =>
                       match value fuel r2 with
                       | Parsed v r3 =>
                           match ws r3 with
                           | String "," r4 =>
                               members fuel r4 (PyDict.set acc k v)
                           | String "}" r4 =>
                               Parsed (VDict (PyDict.set acc k v)) r4
                           | _ => Malformed
                           end
                       | other => other
                       end
                   | _ => Malformed
                   end
               | other => other
               end
          else Malformed
      | EmptyString => Malformed
      end
  end.

Definition loads (s : string) : outcome pyval :=
  match value (2 * String.length s + 2) s with
  | Parsed v r =>
      if PyStr.is_empty (ws r) then Returns v
      else Raises (ValueError "Extra data")
  | Malformed => Raises (ValueError "No JSON object could be decoded")
  | Unsupported => Raises (OtherError "JSON outside the modelled texts")
  end.

End Json.

(** The storage backend, in memory.  The backend package is not part
    of the resource module; its operations follow the interface the
    specification gives for it. *)
Module Memory.

Record store : Type := {
  records : list (string * record);
  counter : nat
}.

Definition empty : store := {| records := []; counter := 0 |}.

Fixpoint lookup (l : list (string * record)) (record_id : string)
  : option record :=
  match l with
  | [] => None
  | (k, r) :: rest =>
      if String.eqb k record_id then Some r else lookup rest record_id
  end.

Fixpoint upsert (l : list (string * record)) (record_id : string)
         (r : record) : list (string * record) :=
  match l with
  | [] => [(record_id, r)]
  | (k, old) :: rest =>
      if String.eqb k record_id then (k, r) :: rest
      else (k, old) :: upsert rest record_id r
  end.

Fixpoint discard (l : list (string * record)) (record_id : string)
  : list (string * record) :=
  match l with
  | [] => []
  | (k, r) :: rest =>
      if String.eqb k record_id then discard rest record_id
      else (k, r) :: discard rest record_id
  end.

(** Modelled from the spec: the backend's [get_all] is missing; it
    returns a list of records, and which records and in which order is
    left to the backend.  This one lists every record. *)
Definition get_all (filters : list filter) (sorting : list sort_directive)
           (resource : BaseResource) (user_id : string) (s : store)
  : outcome (list record) * store :=
  (Returns (map snd (records s)), s).

(** Modelled from the spec: the backend's [get] is missing; it
    returns the record, and fails with the record-not-found error
    when the id is absent. *)
Definition get (record_id : string) (resource : BaseResource)
           (user_id : string) (s : store) : outcome record * store :=
  match lookup (records s) record_id with
  | Some r => (Returns r, s)
  | None => (Raises (RecordNotFoundError record_id), s)
  end.

(** Modelled from the spec: the backend's [create] is missing; it
    stores the record, assigns an id if the record has none, and
    returns the stored record. *)
Definition create (new_record : record) (resource : BaseResource)
           (user_id : string) (s : store) : outcome record * store :=
  let assigned := NilZero.string_of_uint (Nat.to_uint (counter s)) in
  let record_id :=
    match PyDict.get new_record (id_field resource) with
    | Some (VStr given) => given
    | _ => assigned
    end in
  let stored := PyDict.set new_record (id_field resource) (VStr record_id) in
  (Returns stored,
   {| records := upsert (records s) record_id stored;
      counter := S (counter s) |}).

(** Modelled from the spec: the backend's [update] is missing; it
    replaces the whole record stored under the id, or inserts it, and
    returns the stored record, whose id is the one given. *)
Definition update (record_id : string) (new_record : record)
           (resource : BaseResource) (user_id : string) (s : store)
  : outcome record * store :=
  let stored := PyDict.set new_record (id_field resource) (VStr record_id) in
  (Returns stored,
   {| records := upsert (records s) record_id stored;
      counter := counter s |}).

(** Modelled from the spec: the backend's [delete] is missing; it
    removes the record and returns its last state, and fails with the
    record-not-found error when the id is absent. *)
Definition delete (record_id : string) (resource : BaseResource)
           (user_id : string) (s : store) : outcome record * store :=
  match lookup (records s) record_id with
  | Some r =>
      (Returns r,
       {| records := discard (records s) record_id;
          counter := counter s |})
  | None => (Raises (RecordNotFoundError record_id), s)
  end.

End Memory.

(* ================================================================== *)
(** * Successive writes to one record *)
(* ================================================================== *)

(** The three writing end-points. *)
Inductive write_kind : Type :=
| Post
| Put
| Patch.

Section Writes.

Variable json_loads : string -> outcome pyval.
Variable self : BaseResource.

Definition memory_world := world Memory.store.

(** One write request served on the in-memory backend. *)
Definition run_write (kind : write_kind) (request : Request)
  : memory_world -> outcome pyval * memory_world :=
  match kind with
  | Post => collection_post json_loads Memory.create self request
  | Put => put json_loads Memory.update self request
  | Patch => patch json_loads Memory.get Memory.update self request
  end.

(** The [last_modified] of the record stored under [record_id]. *)
Definition stored_last_modified (record_id : string) (w : memory_world)
  : option pyval :=
  match Memory.lookup (Memory.records (db w)) record_id with
  | Some r => PyDict.get r (modified_field self)
  | None => None
  end.

(** A write is applied to the record [record_id] when it is a put or
    a patch of that id, or a post that stored a record of that id. *)
Definition applied_to (record_id : string) (kind : write_kind)
           (request : Request) (returned : record) : bool :=
  match kind with
  | Post =>
      match PyDict.get returned (id_field self) with
      | Some (VStr i) => String.eqb i record_id
      | _ => false
      end
  | Put | Patch => String.eqb (matchdict_id request) record_id
  end.

(** Serve the writes in order.  Each has to succeed (the handler
    returns the stored record) and to be applied to [record_id]; the
    result lists the [last_modified] stored after each write. *)
Fixpoint run_writes (record_id : string)
         (writes : list (write_kind * Request)) (w : memory_world)
  : option (list Z) :=
  match writes with
  | [] => Some []
  | (kind, request) :: rest =>
      match run_write kind request w with
      | (Returns (VDict returned), w') =>
          if applied_to record_id kind request returned
          then match stored_last_modified record_id w',
                     run_writes record_id rest w' with
               | Some (VInt stamp), Some stamps => Some (stamp :: stamps)
               | _, _ => None
               end
          else None
      | _ => None
      end
  end.

(** The write takes its [last_modified] from the clock: a patch
    always, a post or a put when its body is a JSON object without
    that key. *)
Definition stamped_by_clock (write : write_kind * Request) : Prop :=
  match fst write with
  | Patch => True
  | Post | Put =>
      exists d, deserialize json_loads (body (snd write)) = Returns (VDict d)
                /\ PyDict.get d (modified_field self) = None
  end.

End Writes.

(** A world in which nothing has happened yet. *)
Definition fresh_world {store : Type} (s : store) : world store :=
  {| errors := []; status := None; db := s;
     self_record := None; calls := [] |}.

(** A request with the given body, record id and clock reading. *)
Definition request_of (raw record_id : string) (clock : Z) : Request :=
  {| GET := []; body := raw; matchdict_id := record_id;
     authenticated_userid := "alice"; now := clock |}.

(** The known fields of a resource that declares [foo]. *)
Definition foo_fields : list string := ["_id"; "last_modified"; "foo"].

(** [BaseResource] itself, with the rendering of scalars. *)
Definition plain_resource : BaseResource := resource_with [].

(** The text of a JSON object with one member. *)
Definition json_object (key value_text : string) : string :=
  "{" ++ Json.quoted key ++ ": " ++ value_text ++ "}".

(** The world after one post with an empty body at second 1000: it
    holds the record of id 0, last modified at 1000. *)
Definition one_record_world : memory_world :=
  snd (run_write Json.loads plain_resource Post (request_of "" "" 1000)
                 (fresh_world Memory.empty)).

(* ================================================================== *)
(** * readinglist.views.hello *)
(* ================================================================== *)

(** The view of [views/hello.py].  Of the request it reads [host_url]
    and the settings of the registry, a dictionary from setting names
    to strings. *)
Module Hello.

Record Request : Type := {
  host_url : string;
  settings : list (string * string)
}.

(** [settings.get(key, default)] *)
Fixpoint settings_get (d : list (string * string)) (key default : string)
  : string :=
  match d with
  | [] => default
  | (k, v) :: rest =>
      if String.eqb k key then v else settings_get rest key default
  end.

(** [s.strip()] on [PyStr.plain] text: the blanks removed are those of
    [PyStr.is_space]. *)
Definition strip (s : string) : string :=
  Colander.lstrip (Colander.rstrip s).

(** [get_eos]: [x or None] is [None] for the empty string. *)
Definition get_eos (request : Request) : option string :=
  let eos := strip (settings_get (settings request) "readinglist.eos" "") in
  if PyStr.is_empty eos then None else Some eos.

Section Version.

(** [readinglist.__version__], imported as [VERSION]. *)
Variable VERSION : string.

(** [get_hello] *)
Definition get_hello (request : Request) : record :=
  let data := [("hello", VStr "readinglist");
               ("version", VStr VERSION);
               ("url", VStr (host_url request));
               ("documentation", VStr "https://readinglist.rtfd.org/")] in
  match get_eos request with
  | Some eos => PyDict.set data "eos" (VStr eos)
  | None => data
  end.

End Version.

End Hello.

(** A method that leaves the error list and the status of the response
    as they are. *)
Definition quiet {store A : Type} (m : M store A) : Prop :=
  forall w, errors (snd (m w)) = errors w /\ status (snd (m w)) = status w.

(** What an end-point may do to the response: add error entries behind
    those recorded, and leave the status or set it to 400 or 404. *)
Definition extends_errors {store : Type} (w w' : world store) : Prop :=
  (exists added, errors w' = errors w ++ added)
  /\ (status w' = status w
      \/ status w' = Some "400 Bad Request"
      \/ status w' = Some "404 Resource Not Found").

(** Text made of blanks only. *)
Fixpoint all_space (s : string) : bool :=
  match s with
  | EmptyString => true
  | String c r => PyStr.is_space c && all_space r
  end.

(** A request that lists the collection. *)
Definition list_request : Request :=
  {| GET := [("_id", "abc"); ("since", "100"); ("sort", "title")];
     body := "";
     matchdict_id := "";
     authenticated_userid := "alice";
     now := 1000 |}.

(** A backend operation that always fails with the given exception. *)
Definition failing_create (e : exn) (new_record : record)
           (resource : BaseResource) (user_id : string) (s : Memory.store)
  : outcome record * Memory.store :=
  (Raises e, s).

Definition failing_update (e : exn) (record_id : string)
           (new_record : record) (resource : BaseResource)
           (user_id : string) (s : Memory.store)
  : outcome record * Memory.store :=
  (Raises e, s).

(** A request of the hello view. *)
Definition hello_request (eos : string) : Hello.Request :=
  {| Hello.host_url := "http://localhost";
     Hello.settings := [("readinglist.eos", eos)] |}.
(* ================================================================== *)
(** * Properties of the query translator *)
(* ================================================================== *)

Section QueryTranslatorFacts.

Variable literal_text : string -> outcome pyval.
Variable known : list string.
Variable modified : string.

Local Abbreviation decode := (__decode_filter_value literal_text).
Local Abbreviation extract := (_extract_filters literal_text known modified).
Local Abbreviation loop := (extract_filters_loop literal_text known modified).

Lemma append_filters_app filters param value :
  append_filters known modified filters param value
  = filters ++ param_filters known modified param value.
Proof.
  unfold param_filters, append_filters.
  destruct (PyStr.mem param known), (String.eqb param "since"); simpl;
    rewrite ?app_nil_r, <- ?app_assoc; reflexivity.
Qed.

Lemma loop_acc items : forall acc,
  loop items acc
  = (fs <- loop items [] ;; Returns (acc ++ fs))%outcome.
Proof.
  induction items as [|[param raw] rest IH]; intros acc; simpl.
  - now rewrite app_nil_r.
  - destruct (decode raw) as [v|e]; simpl; [|reflexivity].
    rewrite IH, (IH (append_filters known modified [] param v)).
    rewrite (append_filters_app acc).
    destruct (loop rest []) as [fs|e]; simpl; [|reflexivity].
    now rewrite app_assoc.
Qed.

(** The filters of a query are the filters of its first parameter
    followed by those of the rest. *)
Lemma extract_cons param raw rest :
  extract ((param, raw) :: rest)
  = (v <- decode raw ;;
     fs <- extract rest ;;
     Returns (param_filters known modified param v ++ fs))%outcome.
Proof.
  unfold _extract_filters; simpl.
  destruct (decode raw) as [v|e]; simpl; [|reflexivity].
  now rewrite loop_acc.
Qed.

Lemma extract_app q1 q2 :
  extract (q1 ++ q2)
  = (fs1 <- extract q1 ;;
     fs2 <- extract q2 ;;
     Returns (fs1 ++ fs2))%outcome.
Proof.
  induction q1 as [|[param raw] rest IH].
  - unfold _extract_filters. simpl.
    destruct (loop q2 []); reflexivity.
  - rewrite <- app_comm_cons, !extract_cons.
    destruct (decode raw) as [v|e]; simpl; [|reflexivity].
    rewrite IH.
    destruct (extract rest) as [fs1|e]; simpl; [|reflexivity].
    destruct (extract q2) as [fs2|e]; simpl; [|reflexivity].
    now rewrite app_assoc.
Qed.

(** A boolean token never reaches the parser: the boolean it stands
    for is not an AST node, [literal_eval] raises [ValueError], and
    the boolean is returned. *)
Lemma decode_true raw :
  PyStr.mem (PyStr.lower raw) ["on"; "true"; "yes"; "1"] = true ->
  decode raw = Returns (VBool true).
Proof. intros H. unfold __decode_filter_value. now rewrite H. Qed.

Lemma decode_false raw :
  PyStr.mem (PyStr.lower raw) ["on"; "true"; "yes"; "1"] = false ->
  PyStr.mem (PyStr.lower raw) ["off"; "false"; "no"; "0"] = true ->
  decode raw = Returns (VBool false).
Proof. intros H1 H2. unfold __decode_filter_value. now rewrite H1, H2. Qed.

Lemma not_a_token_split raw :
  not_a_token raw ->
  PyStr.mem (PyStr.lower raw) ["on"; "true"; "yes"; "1"] = false
  /\ PyStr.mem (PyStr.lower raw) ["off"; "false"; "no"; "0"] = false.
Proof.
  unfold not_a_token, PyStr.mem.
  change ["on"; "true"; "yes"; "1"; "off"; "false"; "no"; "0"]
    with (["on"; "true"; "yes"; "1"] ++ ["off"; "false"; "no"; "0"]).
  rewrite existsb_app. apply orb_false_elim.
Qed.

(** What the parser makes of the text is the decoded value. *)
Lemma decode_parsed raw v :
  not_a_token raw -> literal_text raw = Returns v -> decode raw = Returns v.
Proof.
  intros H Hv. destruct (not_a_token_split H) as [H1 H2].
  unfold __decode_filter_value. rewrite H1, H2. simpl. now rewrite Hv.
Qed.

(** The fallback of the decoder: a [ValueError] of the parser gives
    the raw string. *)
Lemma decode_value_error raw msg :
  not_a_token raw -> literal_text raw = Raises (ValueError msg) ->
  decode raw = Returns (VStr raw).
Proof.
  intros H Hv. destruct (not_a_token_split H) as [H1 H2].
  unfold __decode_filter_value. rewrite H1, H2. simpl. now rewrite Hv.
Qed.

(** Any other exception of the parser leaves the decoder, and with it
    [_extract_filters], whatever the parameter is called. *)
Lemma decode_other_error raw e :
  not_a_token raw -> literal_text raw = Raises e ->
  (forall msg, e <> ValueError msg) ->
  decode raw = Raises e.
Proof.
  intros H Hv He. destruct (not_a_token_split H) as [H1 H2].
  unfold __decode_filter_value. rewrite H1, H2. simpl. rewrite Hv.
  destruct e; try reflexivity. now destruct (He msg).
Qed.

Lemma extract_other_error before param raw after fs e :
  extract before = Returns fs ->
  not_a_token raw -> literal_text raw = Raises e ->
  (forall msg, e <> ValueError msg) ->
  extract (before ++ (param, raw) :: after) = Raises e.
Proof.
  intros Hb H Hv He.
  rewrite extract_app, Hb, extract_cons, (decode_other_error H Hv He).
  reflexivity.
Qed.

(** ** C1.  For a schema whose known fields include [foo] and not
    [since], and a parser that reads the text [100] as the integer 100,
    [_extract_filters] applied to the query [foo=1&since=100] returns a
    list of exactly two filters that is equal, by the equality [==] of
    Python, to the list of [("foo", 1, "==")] and
    [(modified_field, 100, ">=")], in that order.  The value [1] is a
    boolean token: the first filter holds [True], and [True == 1]. *)
Theorem extract_filters_foo_since_equal :
  PyStr.mem "foo" known = true ->
  PyStr.mem "since" known = false ->
  literal_text "100" = Returns (VInt 100) ->
  exists filters,
    extract [("foo", "1"); ("since", "100")] = Returns filters
    /\ filters = [("foo", VBool true, "=="); (modified, VInt 100, ">=")]
    /\ filters_eq filters
                  [("foo", VInt 1, "=="); (modified, VInt 100, ">=")]
       = true.
Proof.
  intros Hfoo Hsince H100. eexists. split; [|split; [reflexivity|]].
  - rewrite !extract_cons.
    rewrite (@decode_true "1") by reflexivity.
    rewrite (@decode_parsed "100" (VInt 100))
      by (reflexivity || assumption).
    unfold param_filters, append_filters. rewrite Hfoo, Hsince.
    reflexivity.
  - cbn. now rewrite String.eqb_refl.
Qed.

(** ** C9.  When [since] is a known field and the value of the
    parameter [since] decodes to [v], that one parameter contributes
    the equality filter [("since", v, "==")] followed by the range
    filter [(modified_field, v, ">=")], between the filters of the
    parameters before it and of those after it. *)
Theorem extract_filters_since_known before raw after v fs1 fs2 :
  PyStr.mem "since" known = true ->
  decode raw = Returns v ->
  extract before = Returns fs1 ->
  extract after = Returns fs2 ->
  extract (before ++ ("since", raw) :: after)
  = Returns (fs1 ++ [("since", v, "=="); (modified, v, ">=")] ++ fs2).
Proof.
  intros Hknown Hv H1 H2.
  rewrite extract_app, H1, extract_cons, Hv, H2. simpl.
  unfold param_filters, append_filters. rewrite Hknown. reflexivity.
Qed.

End QueryTranslatorFacts.

(** C1 at the parser of integer literals, for the schema that declares
    [foo]. *)
Lemma extract_filters_foo_since_equal_witness :
  exists filters,
    _extract_filters Literal.literal_text foo_fields "last_modified"
                     [("foo", "1"); ("since", "100")]
    = Returns filters
    /\ filters
       = [("foo", VBool true, "=="); ("last_modified", VInt 100, ">=")]
    /\ filters_eq filters
                  [("foo", VInt 1, "=="); ("last_modified", VInt 100, ">=")]
       = true.
Proof.
  apply (@extract_filters_foo_since_equal
           Literal.literal_text foo_fields "last_modified");
    reflexivity.
Defined.

(** As an object the value of the first filter is the boolean, not the
    integer: the two lists differ in nothing that [==] can tell. *)
Lemma extract_filters_foo_since_holds_boolean :
  _extract_filters Literal.literal_text foo_fields "last_modified"
                   [("foo", "1"); ("since", "100")]
  <> Returns [("foo", VInt 1, "=="); ("last_modified", VInt 100, ">=")].
Proof. vm_compute. discriminate. Qed.

(** C9 at a schema that declares a field [since], for the query
    [foo=abc&since=100&sort=x]. *)
Lemma extract_filters_since_known_witness :
  _extract_filters Literal.literal_text ["_id"; "last_modified"; "since"]
                   "last_modified"
                   ([("foo", "abc")] ++ ("since", "100") :: [("sort", "x")])
  = Returns ([] ++ [("since", VInt 100, "==");
                    ("last_modified", VInt 100, ">=")] ++ []).
Proof.
  apply (@extract_filters_since_known Literal.literal_text
           ["_id"; "last_modified"; "since"] "last_modified"
           [("foo", "abc")] "100" [("sort", "x")] (VInt 100) [] []);
    reflexivity.
Defined.

(** ** C2 at a failing input.  The value [hello world] is not a boolean
    token and is not a Python expression; the parser raises
    [SyntaxError], which [__decode_filter_value] does not catch, and
    [_extract_filters] raises it instead of returning a list. *)
Theorem extract_filters_raises_syntax_error :
  __decode_filter_value Literal.literal_text "hello world"
  = Raises (SyntaxError "invalid syntax")
  /\ _extract_filters Literal.literal_text foo_fields "last_modified"
                      [("foo", "hello world")]
     = Raises (SyntaxError "invalid syntax").
Proof. split; reflexivity. Qed.

(** ** The pattern of [_extract_sorting] *)

Module ReFacts.

Import Re SortPattern.

Lemma space_not_sign c : PyStr.is_space c = true -> is_sign c = false.
Proof. destruct c as [[] [] [] [] [] [] [] []]; vm_compute; congruence. Qed.

Lemma space_not_word c : PyStr.is_space c = true -> PyStr.is_word c = false.
Proof. destruct c as [[] [] [] [] [] [] [] []]; vm_compute; congruence. Qed.

Lemma sign_not_word c : is_sign c = true -> PyStr.is_word c = false.
Proof. destruct c as [[] [] [] [] [] [] [] []]; vm_compute; congruence. Qed.

Lemma word_after_word s : s = (word s ++ after_word s)%string.
Proof.
  induction s as [|c r IH]; simpl; [reflexivity|].
  destruct (PyStr.is_word c); simpl; [now rewrite <- IH|reflexivity].
Qed.

Lemma length_append a b :
  String.length (a ++ b) = String.length a + String.length b.
Proof. induction a as [|c a IH]; simpl; [reflexivity|now rewrite IH]. Qed.

Lemma consumed_append a b : consumed (a ++ b) b = a.
Proof.
  unfold consumed. rewrite length_append.
  replace (String.length a + String.length b - String.length b)
    with (String.length a) by lia.
  induction a as [|c a IH]; simpl; [now destruct (b)|now rewrite IH].
Qed.

Lemma consumed_all s : consumed s s = EmptyString.
Proof. apply (consumed_append EmptyString s). Qed.

Lemma consumed_one c r : consumed (String c r) r = String c EmptyString.
Proof. apply (consumed_append (String c EmptyString) r). Qed.

(** The optional blank that ends the pattern always matches. *)
Lemma search_last s groups :
  search (Opt PyStr.is_space) s groups (fun _ g => Some g) = Some groups.
Proof.
  destruct s as [|c r]; simpl; [|destruct (PyStr.is_space c)]; reflexivity.
Qed.

(** [\w+] before a continuation that cannot fail takes the whole run. *)
Lemma search_plus (class : ascii -> bool) (run after : string -> string)
      (h : string -> list string) s groups
      (k : string -> list string -> option (list string)) :
  (forall s', k s' groups = Some (h s')) ->
  (forall c r, run (String c r)
               = if class c then String c (run r) else EmptyString) ->
  run EmptyString = EmptyString ->
  (forall c r, after (String c r) = if class c then after r else String c r) ->
  after EmptyString = EmptyString ->
  search (Plus class) s groups k
  = if PyStr.is_empty (run s) then None else Some (h (after s)).
Proof.
  intros Hk Hrun Hrun0 Hafter Hafter0.
  induction s as [|c r IH]; simpl.
  - now rewrite Hrun0.
  - rewrite Hrun, Hafter. destruct (class c); simpl; [|reflexivity].
    simpl in IH. rewrite IH. destruct (PyStr.is_empty (run r)) eqn:E; simpl.
    + rewrite Hk. f_equal. f_equal.
      clear IH. revert E. destruct r as [|c' r']; [now rewrite Hafter0|].
      rewrite Hrun, Hafter. now destruct (class c').
    + reflexivity.
Qed.

Lemma search_cat r1 r2 s groups k :
  search (Cat r1 r2) s groups k
  = search r1 s groups (fun s' groups' => search r2 s' groups' k).
Proof. reflexivity. Qed.

Lemma search_group r s groups k :
  search (Group r) s groups k
  = search r s groups (fun s' groups' => k s' (groups' ++ [consumed s s'])).
Proof. reflexivity. Qed.

(** The two groups from the second one on. *)
Lemma search_word s groups :
  search (Cat (Group (Plus PyStr.is_word)) (Opt PyStr.is_space)) s groups
         (fun _ g => Some g)
  = if PyStr.is_empty (word s) then None else Some (groups ++ [word s]).
Proof.
  rewrite search_cat, search_group.
  rewrite (@search_plus PyStr.is_word word after_word
             (fun s' => groups ++ [consumed s s'])); try reflexivity.
  - destruct (PyStr.is_empty (word s)); [reflexivity|].
    rewrite (word_after_word s) at 1. now rewrite consumed_append.
  - intros s'. now rewrite search_last.
Qed.

Lemma search_opt class s groups k :
  search (Opt class) s groups k
  = match s with
    | String c rest =>
        if class c then first (k rest groups) (k s groups) else k s groups
    | EmptyString => k s groups
    end.
Proof. reflexivity. Qed.

Lemma first_none {A} (a : option A) : first a None = a.
Proof. now destruct a. Qed.

(** The pattern from its first group on. *)
Lemma search_sign s groups :
  search (Cat (Group (Opt is_sign))
              (Cat (Group (Plus PyStr.is_word)) (Opt PyStr.is_space)))
         s groups (fun _ g => Some g)
  = let (order, rest) := sign s in
    if PyStr.is_empty (word rest) then None
    else Some (groups ++ [order; word rest]).
Proof.
  rewrite search_cat, search_group, search_opt. unfold sign.
  destruct s as [|c r]; cbv beta.
  - rewrite search_word. reflexivity.
  - destruct (is_sign c) eqn:Hsign.
    + rewrite !search_word, consumed_one. cbn [word].
      rewrite (sign_not_word _ Hsign). cbn [PyStr.is_empty].
      rewrite first_none, <- app_assoc. reflexivity.
    + rewrite search_word, consumed_all, <- app_assoc. reflexivity.
Qed.

(** The search for [sort_pattern] is the scan. *)
Lemma re_match_sort_pattern field :
  re_match sort_pattern field = scan field.
Proof.
  unfold re_match, sort_pattern, scan. rewrite search_cat, search_opt.
  destruct field as [|c r]; cbn [skip_space].
  - apply search_sign.
  - destruct (PyStr.is_space c) eqn:Hspace.
    + rewrite !search_sign. unfold sign at 2.
      rewrite (space_not_sign _ Hspace). cbn [word].
      rewrite (space_not_word _ Hspace). cbn [PyStr.is_empty].
      now rewrite first_none.
    + apply search_sign.
Qed.

End ReFacts.

(** ** C4 at a failing input.  The token [title desc] does not consist
    of a sign, word characters and surrounding blanks, yet the pattern
    matches its prefix [title] and [_extract_sorting] emits the
    directive [("title", 1)] for it. *)
Theorem extract_sorting_matches_prefix :
  Re.re_match sort_pattern "title desc" = Some [""; "title"]
  /\ _extract_sorting [("sort", "title desc")] = [("title", 1%Z)].
Proof. split; reflexivity. Qed.

(** A token the pattern does not match, not even on a prefix, adds
    nothing. *)
Lemma append_sorting_no_match sorting field :
  Re.re_match sort_pattern field = None ->
  append_sorting sorting field = sorting.
Proof. intros H. unfold append_sorting. now rewrite H. Qed.

Lemma extract_sorting_examples :
  _extract_sorting [("sort", "-last_modified,title")]
  = [("last_modified", (-1)%Z); ("title", 1%Z)]
  /\ _extract_sorting [("sort", "")] = []
  /\ _extract_sorting [] = []
  /\ _extract_sorting [("sort", "  title,,+")] = [].
Proof. repeat split; reflexivity. Qed.

(* ================================================================== *)
(** * Properties of dictionaries *)
(* ================================================================== *)

Module PyDictFacts.

Import PyDict.

Lemma get_remove d k k' :
  get (remove d k) k' = if String.eqb k k' then None else get d k'.
Proof.
  induction d as [|[a v] rest IH]; simpl.
  - now destruct (String.eqb k k').
  - destruct (String.eqb_spec a k) as [->|Hak]; simpl; rewrite IH.
    + now destruct (String.eqb k k').
    + destruct (String.eqb_spec k k') as [E|Hkk]; [|reflexivity].
      subst k'. apply String.eqb_neq in Hak. now rewrite Hak.
Qed.

Lemma get_set d k v k' :
  get (set d k v) k' = if String.eqb k k' then Some v else get d k'.
Proof.
  induction d as [|[a x] rest IH]; simpl.
  - now destruct (String.eqb k k').
  - destruct (String.eqb_spec a k) as [->|Hak]; simpl.
    + rewrite get_remove. now destruct (String.eqb k k').
    + rewrite IH. destruct (String.eqb_spec k k') as [E|Hkk]; [|reflexivity].
      subst k'. apply String.eqb_neq in Hak. now rewrite Hak.
Qed.

Lemma get_set_same d k v : get (set d k v) k = Some v.
Proof. now rewrite get_set, String.eqb_refl. Qed.

Lemma get_set_other d k v k' : k <> k' -> get (set d k v) k' = get d k'.
Proof. intros H. now rewrite get_set, (proj2 (String.eqb_neq k k')). Qed.

Lemma keys_remove d k x : In x (keys (remove d k)) -> In x (keys d).
Proof.
  induction d as [|[a v] rest IH]; simpl; [tauto|].
  destruct (String.eqb a k); simpl; tauto.
Qed.

Lemma keys_set d k v x : In x (keys (set d k v)) -> x = k \/ In x (keys d).
Proof.
  induction d as [|[a y] rest IH]; simpl.
  - intros [<-|[]]. now left.
  - destruct (String.eqb_spec a k) as [->|Hak]; simpl.
    + intros [<-|H]; [now left|]. right. right. eapply keys_remove, H.
    + intros [<-|H]; [now right; left|]. destruct (IH H); [now left|].
      right. now right.
Qed.

Lemma get_none_not_key d k : get d k = None -> ~ In k (keys d).
Proof.
  induction d as [|[a v] rest IH]; simpl; [tauto|].
  destruct (String.eqb_spec a k) as [->|Hak]; [discriminate|].
  intros H [E|Hin]; [now apply Hak|]. now apply IH.
Qed.

Lemma mem_In x l : PyStr.mem x l = true <-> In x l.
Proof.
  unfold PyStr.mem. rewrite existsb_exists. split.
  - intros (y & Hy & E). apply String.eqb_eq in E. now subst.
  - intros H. exists x. split; [assumption|apply String.eqb_refl].
Qed.

Lemma get_restrict names d k :
  In k names -> get (restrict names d) k = get d k.
Proof.
  intros Hk. induction d as [|[a v] rest IH]; simpl; [reflexivity|].
  destruct (PyStr.mem a names) eqn:Ha; simpl.
  - now rewrite IH.
  - destruct (String.eqb_spec a k) as [->|Hak]; [|assumption].
    apply mem_In in Hk. congruence.
Qed.

End PyDictFacts.

(* ================================================================== *)
(** * Properties of the schema *)
(* ================================================================== *)

Module ColanderFacts.

Import Colander.

Lemma Integer_of_int node_name n :
  Integer node_name (VInt n) = Returns (Some (VInt n)).
Proof. unfold Integer. simpl. now destruct (n =? 0)%Z. Qed.

Lemma impl_loop_app now l1 l2 st :
  impl_loop now (l1 ++ l2) st
  = (st' <- impl_loop now l1 st ;; impl_loop now l2 st')%outcome.
Proof.
  revert st. induction l1 as [|n rest IH]; intros st; simpl; [reflexivity|].
  destruct (impl_step now st n); simpl; [apply IH|reflexivity].
Qed.

(** Case analysis on one round of the loop. *)
Ltac step_cases H :=
  unfold impl_step in H;
  repeat match type of H with
         | context [match ?x with _ => _ end] => destruct x eqn:?
         end;
  try discriminate; injection H as <-; simpl.

Lemma impl_step_keys now st n st' x :
  impl_step now st n = Returns st' ->
  In x (PyDict.keys (result st')) ->
  x = name n \/ In x (PyDict.keys (result st)).
Proof.
  intros H. step_cases H; try tauto.
  intros Hx. now apply PyDictFacts.keys_set in Hx.
Qed.

Lemma impl_loop_keys now children : forall st st' x,
  impl_loop now children st = Returns st' ->
  In x (PyDict.keys (result st')) ->
  In x (map name children) \/ In x (PyDict.keys (result st)).
Proof.
  induction children as [|n rest IH]; intros st st' x; simpl.
  - intros [= <-]. tauto.
  - destruct (impl_step now st n) as [st1|e] eqn:Hstep; simpl; [|discriminate].
    intros Hloop Hx. destruct (IH _ _ _ Hloop Hx) as [Hin|Hin]; [tauto|].
    destruct (impl_step_keys _ _ _ _ Hstep Hin); subst; tauto.
Qed.

Lemma impl_step_other now st n st' k :
  name n <> k ->
  impl_step now st n = Returns st' ->
  PyDict.get (result st') k = PyDict.get (result st) k
  /\ PyDict.get (value st') k = PyDict.get (value st) k.
Proof.
  intros Hk H. apply String.eqb_neq in Hk.
  step_cases H; rewrite ?PyDictFacts.get_remove, ?PyDictFacts.get_set, ?Hk;
    split; reflexivity.
Qed.

Lemma impl_loop_other now children k : forall st st',
  ~ In k (map name children) ->
  impl_loop now children st = Returns st' ->
  PyDict.get (result st') k = PyDict.get (result st) k
  /\ PyDict.get (value st') k = PyDict.get (value st) k.
Proof.
  induction children as [|n rest IH]; intros st st' Hk; simpl.
  - intros [= <-]. split; reflexivity.
  - destruct (impl_step now st n) as [st1|e] eqn:Hstep; simpl; [|discriminate].
    intros Hloop. simpl in Hk.
    destruct (IH st1 st' (fun H => Hk (or_intror H)) Hloop) as [-> ->].
    eapply impl_step_other; [|eassumption].
    intros E. apply Hk. now left.
Qed.

(** The error collected by the loop only grows. *)
Lemma impl_step_error now st n st' :
  impl_step now st n = Returns st' -> error st' = None -> error st = None.
Proof. intros H. step_cases H; try tauto; discriminate. Qed.

Lemma impl_loop_error now children : forall st st',
  impl_loop now children st = Returns st' ->
  error st' = None -> error st = None.
Proof.
  induction children as [|n rest IH]; intros st st'; simpl.
  - now intros [= <-].
  - destruct (impl_step now st n) as [st1|e] eqn:Hstep; simpl; [|discriminate].
    intros Hloop Hnone. eapply impl_step_error; [eassumption|].
    eapply IH; eassumption.
Qed.

Lemma impl_step_agree now names a b n :
  In (name n) names -> agree names a b ->
  similar names (impl_step now a n) (impl_step now b n).
Proof.
  intros Hn (Hv & He & Hr). unfold impl_step. rewrite <- (Hv _ Hn), He, Hr.
  assert (Hrest : forall k, In k names ->
            PyDict.get (PyDict.remove (value a) (name n)) k
            = PyDict.get (PyDict.remove (value b) (name n)) k).
  { intros k Hk. rewrite !PyDictFacts.get_remove, (Hv _ Hk). reflexivity. }
  destruct (deserialize now n (PyDict.get (value a) (name n))) as [[|v]|e];
    simpl; try (repeat split; assumption || reflexivity).
  destruct e; simpl; try reflexivity. repeat split; assumption || reflexivity.
Qed.

Lemma impl_loop_agree now names children : forall a b,
  (forall n, In n children -> In (name n) names) ->
  agree names a b ->
  similar names (impl_loop now children a) (impl_loop now children b).
Proof.
  induction children as [|n rest IH]; intros a b Hin Hab; simpl.
  - assumption.
  - pose proof (@impl_step_agree now names a b n
                  (Hin n (or_introl eq_refl)) Hab) as Hs.
    destruct (impl_step now a n) as [a'|e1], (impl_step now b n) as [b'|e2];
      simpl in *; try contradiction; [|assumption].
    apply IH; [|assumption]. intros m Hm. apply Hin. now right.
Qed.

(** Keys the schema does not declare play no part in the result. *)
Lemma Mapping_deserialize_restrict now children d :
  Mapping_deserialize now children
    (VDict (PyDict.restrict (map name children) d))
  = Mapping_deserialize now children (VDict d).
Proof.
  unfold Mapping_deserialize.
  pose proof (@impl_loop_agree now (map name children) children
                {| value := PyDict.restrict (map name children) d;
                   error := None; result := [] |}
                {| value := d; error := None; result := [] |}) as H.
  lapply H; [clear H; intros H|intros n Hn; now apply in_map].
  lapply H; [clear H; intros H|].
  - destruct (impl_loop now children _) as [a|e1],
      (impl_loop now children _) as [b|e2]; simpl in *; try contradiction.
    + destruct H as (_ & -> & ->). reflexivity.
    + now subst.
  - repeat split. intros k Hk. simpl. now apply PyDictFacts.get_restrict.
Qed.

(** Every key of a deserialized mapping is the name of a child. *)
Lemma Mapping_deserialize_keys now children c r k :
  Mapping_deserialize now children c = Returns r ->
  In k (PyDict.keys r) -> In k (map name children).
Proof.
  destruct c; simpl; try discriminate.
  destruct (impl_loop now children _) as [st|e] eqn:Hloop; simpl;
    [|discriminate].
  destruct (error st); [discriminate|]. intros [= <-] Hk.
  destruct (impl_loop_keys _ _ _ _ Hloop Hk) as [H|[]]. exact H.
Qed.

(** The loop itself never raises a validation error: those of the
    children are collected. *)
Lemma impl_step_not_invalid now st n e :
  impl_step now st n <> Raises (Invalid e).
Proof.
  unfold impl_step.
  destruct (deserialize now n _) as [[|v]|x]; try discriminate.
  destruct x; discriminate.
Qed.

Lemma impl_loop_not_invalid now children : forall st e,
  impl_loop now children st <> Raises (Invalid e).
Proof.
  induction children as [|n rest IH]; intros st e; simpl; [discriminate|].
  destruct (impl_step now st n) as [st1|x] eqn:Hstep; simpl; [apply IH|].
  intros [= ->]. now apply impl_step_not_invalid in Hstep.
Qed.

Lemma impl_step_collected now d st n st' :
  PyDict.get (value st) (name n) = PyDict.get d (name n) ->
  impl_step now st n = Returns st' ->
  collected st' = collected st ++ child_error now d n
  /\ value st' = PyDict.remove (value st) (name n).
Proof.
  intros Hget. unfold impl_step, child_error, collected. rewrite Hget.
  destruct (deserialize now n _) as [[|v]|x]; simpl.
  - intros [= <-]. simpl. now rewrite app_nil_r.
  - intros [= <-]. simpl. now rewrite app_nil_r.
  - destruct x; try discriminate. intros [= <-]. simpl.
    now destruct (error st).
Qed.

(** All the validation errors of the children are collected, in the
    order of the children. *)
Lemma impl_loop_collected now d children : forall st st',
  NoDup (map name children) ->
  (forall c, In c children ->
             PyDict.get (value st) (name c) = PyDict.get d (name c)) ->
  impl_loop now children st = Returns st' ->
  collected st' = collected st ++ flat_map (child_error now d) children.
Proof.
  induction children as [|n rest IH]; intros st st' Hnodup Hget; simpl.
  - intros [= <-]. now rewrite app_nil_r.
  - destruct (impl_step now st n) as [st1|x] eqn:Hstep; simpl; [|discriminate].
    intros Hloop. inversion Hnodup as [|? ? Hnotin Hrest]; subst.
    destruct (@impl_step_collected now d st n st1
                (Hget n (or_introl eq_refl)) Hstep) as [Hc Hv].
    rewrite (IH st1 st' Hrest); [now rewrite Hc, app_assoc| |assumption].
    intros c Hc'. rewrite Hv, PyDictFacts.get_remove.
    destruct (String.eqb_spec (name n) (name c)) as [E|_].
    + exfalso. apply Hnotin. rewrite E. now apply in_map.
    + apply Hget. now right.
Qed.

(** A validation error of the mapping lists the error items of the
    failing children, and nothing else. *)
Lemma Mapping_deserialize_invalid now children d asdict :
  NoDup (map name children) ->
  Mapping_deserialize now children (VDict d) = Raises (Invalid asdict) ->
  asdict = flat_map (child_error now d) children.
Proof.
  intros Hnodup. unfold Mapping_deserialize.
  destruct (impl_loop now children _) as [st|x] eqn:Hloop; simpl.
  - pose proof (@impl_loop_collected
                  now d children
                  {| value := d; error := None; result := [] |} st Hnodup
                  (fun c _ => eq_refl) Hloop) as Hc.
    unfold collected in Hc. simpl in Hc.
    destruct (error st); [|discriminate]. intros [= <-]. exact Hc.
  - intros [= ->]. now apply impl_loop_not_invalid in Hloop.
Qed.

End ColanderFacts.

(** ** C8.  A [TimeStamp] node that is required deserializes
    [colander.null] (the field is absent) to the reading of the clock,
    and any [TimeStamp] node deserializes a provided integer to exactly
    that integer. *)
Theorem TimeStamp_deserialize_now_or_given now name missing :
  (Colander.is_required (TimeStamp name missing) = true ->
   Colander.deserialize now (TimeStamp name missing) None
   = Returns (Colander.Val (VInt now)))
  /\ (forall n, Colander.deserialize now (TimeStamp name missing)
                                     (Some (VInt n))
                = Returns (Colander.Val (VInt n))).
Proof.
  split.
  - intros Hreq. unfold Colander.deserialize, Colander.TimeStamp_deserialize.
    simpl Colander.class. cbv iota. rewrite Hreq. simpl.
    now rewrite ColanderFacts.Integer_of_int.
  - intros n. unfold Colander.deserialize, Colander.TimeStamp_deserialize.
    simpl. now rewrite ColanderFacts.Integer_of_int.
Qed.

(** C8 at the [last_modified] child of [RessourceSchema], at second
    1420070400 and for the provided integer 12. *)
Lemma TimeStamp_deserialize_now_or_given_witness :
  Colander.deserialize 1420070400 (TimeStamp "last_modified" Colander.required)
                       None
  = Returns (Colander.Val (VInt 1420070400))
  /\ Colander.deserialize 1420070400
                          (TimeStamp "last_modified" Colander.required)
                          (Some (VInt 12))
     = Returns (Colander.Val (VInt 12)).
Proof.
  destruct (TimeStamp_deserialize_now_or_given
              1420070400 "last_modified" Colander.required) as [Habsent Hgiven].
  split; [apply Habsent; reflexivity|apply Hgiven].
Defined.

(** A JSON [null] is the object [None], not [colander.null]: the
    clock is not read for it, and the required field is reported
    missing. *)
Lemma TimeStamp_deserialize_json_null now :
  Colander.deserialize now last_modified (Some VNone)
  = Raises (Invalid [("last_modified", Required)]).
Proof. reflexivity. Qed.

(** ** The base schema *)

Section BaseSchemaFacts.

Import Colander.

Variable extra : list SchemaNode.

(** The three answers of the string type. *)
Lemma String_cases node_name c :
  String_ node_name c = Returns None
  \/ (exists s, String_ node_name c = Returns (Some (VStr s)))
  \/ String_ node_name c = Raises (Invalid [(node_name, NotAString c)]).
Proof.
  unfold String_. destruct (PyDict.truthy c); simpl; [|now left].
  right. destruct c; try (now right); left; eexists; reflexivity.
Qed.

(** The round of the [_id] child always ends: its error is collected.
    An absent [_id] is dropped and leaves the errors as they are. *)
Lemma step_id now st :
  exists st1,
    impl_step now st _id = Returns st1
    /\ value st1 = PyDict.remove (value st) "_id"
    /\ (PyDict.get (value st) "_id" = None ->
        result st1 = result st /\ error st1 = error st)
    /\ PyDict.get (result st1) "last_modified"
       = PyDict.get (result st) "last_modified".
Proof.
  unfold impl_step, deserialize, SchemaNode_deserialize, when_null.
  simpl. destruct (PyDict.get (value st) "_id") as [c|]; simpl.
  - destruct (String_cases "_id" c) as [->|[(s & ->)| ->]]; simpl;
      eexists; repeat split; try discriminate.
    simpl. now rewrite PyDictFacts.get_set.
  - eexists; repeat split.
Qed.

(** The [last_modified] child, when it does not fail, stores the clock
    reading for an absent field and [int] of a given value. *)
Lemma step_last_modified now st st2 :
  impl_step now st last_modified = Returns st2 ->
  error st2 = None ->
  PyDict.get (result st2) "_id" = PyDict.get (result st) "_id"
  /\ match PyDict.get (value st) "last_modified" with
     | None => PyDict.get (result st2) "last_modified" = Some (VInt now)
     | Some v => exists n, int v = Some n
                   /\ PyDict.get (result st2) "last_modified" = Some (VInt n)
     end.
Proof.
  unfold impl_step, deserialize, TimeStamp_deserialize,
    SchemaNode_deserialize, when_null. simpl.
  destruct (PyDict.get (value st) "last_modified") as [v|]; simpl.
  - unfold Integer.
    destruct (negb (PyDict.eq v (VInt 0)) && negb (PyDict.truthy v)); simpl.
    + intros [= <-]. simpl. destruct (error st); discriminate.
    + destruct (int v) as [n|]; simpl.
      * intros [= <-] _. simpl. rewrite !PyDictFacts.get_set. simpl.
        split; [reflexivity|]. now exists n.
      * intros [= <-]. simpl. destruct (error st); discriminate.
  - rewrite ColanderFacts.Integer_of_int. simpl. intros [= <-] _. simpl.
    rewrite !PyDictFacts.get_set. simpl. split; reflexivity.
Qed.

(** What validation by a schema that extends [RessourceSchema] makes of
    the two base fields. *)
Lemma Mapping_deserialize_base now d r :
  Mapping_deserialize now (RessourceSchema ++ extra) (VDict d)
  = Returns r ->
  (~ In "_id" (map name extra) -> PyDict.get d "_id" = None ->
   PyDict.get r "_id" = None)
  /\ (~ In "last_modified" (map name extra) ->
      match PyDict.get d "last_modified" with
      | None => PyDict.get r "last_modified" = Some (VInt now)
      | Some v => exists n, int v = Some n
                    /\ PyDict.get r "last_modified" = Some (VInt n)
      end).
Proof.
  unfold Mapping_deserialize, RessourceSchema.
  rewrite ColanderFacts.impl_loop_app. cbn [impl_loop].
  destruct (step_id now {| value := d; error := None; result := [] |})
    as (st1 & -> & Hv1 & Hr1 & Hlm1). cbn [obind].
  destruct (impl_step now st1 last_modified) as [st2|e] eqn:Hstep2;
    cbn [obind]; [|discriminate].
  destruct (impl_loop now extra st2) as [st|e] eqn:Hextra; cbn [obind];
    [|discriminate].
  destruct (error st) eqn:Herr; [discriminate|]. intros [= <-].
  pose proof (ColanderFacts.impl_loop_error _ _ _ Hextra Herr) as Herr2.
  destruct (step_last_modified _ _ Hstep2 Herr2) as [Hid2 Hlm2].
  split.
  - intros Hx Hnone.
    destruct (ColanderFacts.impl_loop_other _ _ _ _ Hx Hextra) as [-> _].
    rewrite Hid2, (proj1 (Hr1 Hnone)). reflexivity.
  - intros Hx.
    destruct (ColanderFacts.impl_loop_other _ _ _ _ Hx Hextra) as [-> _].
    rewrite Hv1, PyDictFacts.get_remove in Hlm2. exact Hlm2.
Qed.

End BaseSchemaFacts.

(* ================================================================== *)
(** * Properties of the end-points *)
(* ================================================================== *)

(** Unfold an end-point down to the operations on the world. *)
Ltac run_method :=
  unfold get, collection_post, put, patch, exists_or_404, validates_or_400,
    bind, lift, ret, db_call, set_record, errors_add, set_status;
  cbn [fst snd errors status db self_record calls].

Section EndPointFacts.

Variable json_loads : string -> outcome pyval.
Variable store : Type.
Variable db_get :
  string -> BaseResource -> string -> store -> outcome record * store.
Variable db_create :
  record -> BaseResource -> string -> store -> outcome record * store.
Variable db_update :
  string -> record -> BaseResource -> string -> store ->
  outcome record * store.
Variable self : BaseResource.
Variable request : Request.

Local Abbreviation record_id := (matchdict_id request).
Local Abbreviation user_id := (authenticated_userid request).

(** The error loop adds one entry per item, in order, and touches
    nothing else. *)
Lemma add_body_errors_spec items : forall w : world store,
  add_body_errors items w
  = (Returns tt,
     {| errors := errors w
                  ++ map (fun item => ("body", fst item, snd item)) items;
        status := status w; db := db w;
        self_record := self_record w; calls := calls w |}).
Proof.
  induction items as [|[field error] rest IH]; intros w; simpl.
  - unfold ret. rewrite app_nil_r. now destruct w.
  - unfold bind, errors_add. rewrite IH. simpl.
    now rewrite <- app_assoc.
Qed.

(** ** C7.  When the backend raises the record-not-found error for the
    requested id, [get] adds exactly one error entry, at location
    [path] on the field [id] with the message of the error, sets the
    status to 404, and returns [None]; nothing is raised. *)
Theorem get_not_found (w : world store) msg s :
  db_get record_id self user_id (db w)
  = (Raises (RecordNotFoundError msg), s) ->
  get db_get self request w
  = (Returns VNone,
     {| errors := errors w ++ [("path", "id", Text msg)];
        status := Some "404 Resource Not Found";
        db := s;
        self_record := self_record w;
        calls := calls w ++ [Get record_id] |}).
Proof. intros H. run_method. rewrite H. reflexivity. Qed.

(** ** C6.  When the body of a post does not deserialize (a
    [ValueError]), or deserializes to a value the schema rejects,
    [collection_post] returns [None] with the status set to 400 and
    raises nothing; the backend is left as it was and is not called.
    A [ValueError] adds the single entry [("body", "body", message)]; a
    validation error adds one [body] entry per item (field, message) of
    the error, and the items of the error are those of the children of
    the schema that reject their field. *)
Theorem collection_post_rejects_bad_body (w : world store) :
  (forall msg,
      deserialize json_loads (body request) = Raises (ValueError msg) ->
      collection_post json_loads db_create self request w
      = (Returns VNone,
         {| errors := errors w ++ [("body", "body", Text msg)];
            status := Some "400 Bad Request";
            db := db w;
            self_record := self_record w;
            calls := calls w |}))
  /\ (forall new_record asdict,
         deserialize json_loads (body request) = Returns new_record ->
         validate self request new_record = Raises (Invalid asdict) ->
         collection_post json_loads db_create self request w
         = (Returns VNone,
            {| errors := errors w
                         ++ map (fun item => ("body", fst item, snd item))
                                asdict;
               status := Some "400 Bad Request";
               db := db w;
               self_record := self_record w;
               calls := calls w |}))
  /\ (forall d asdict,
         NoDup (known_fields self) ->
         validate self request (VDict d) = Raises (Invalid asdict) ->
         asdict = flat_map (Colander.child_error (now request) d)
                           (mapping self)).
Proof.
  split; [|split].
  - intros msg H. run_method. rewrite H. reflexivity.
  - intros new_record asdict H1 H2. run_method. rewrite H1, H2.
    rewrite add_body_errors_spec. reflexivity.
  - intros d asdict Hnodup Hinvalid.
    exact (@ColanderFacts.Mapping_deserialize_invalid
             (now request) (mapping self) d asdict Hnodup Hinvalid).
Qed.

End EndPointFacts.

(** ** End-points of a resource whose schema extends [RessourceSchema] *)

Section StampedResourceFacts.

Variable extra : list Colander.SchemaNode.
Variable json_loads : string -> outcome pyval.
Variable store : Type.
Variable db_get :
  string -> BaseResource -> string -> store -> outcome record * store.
Variable db_create :
  record -> BaseResource -> string -> store -> outcome record * store.
Variable db_update :
  string -> record -> BaseResource -> string -> store ->
  outcome record * store.
Variable request : Request.

Local Abbreviation self := (resource_with extra).
Local Abbreviation record_id := (matchdict_id request).
Local Abbreviation user_id := (authenticated_userid request).

(** ** C5, as amended.  [patch] gets the stored record, merges the
    deserialized body onto it, sets [last_modified] to the clock
    reading whatever the body gave for it, and validates the merged
    record.  If validation fails the backend is not updated and the
    answer is a 400; if it succeeds the validated record carries the
    clock reading as [last_modified] and is what [update] receives,
    after which [patch] returns the record the backend returns. *)
Theorem patch_merges_stamps_validates_updates (w : world store) found s1 d :
  ~ In "last_modified" (map Colander.name extra) ->
  db_get record_id self user_id (db w) = (Returns found, s1) ->
  deserialize json_loads (body request) = Returns (VDict d) ->
  let merged :=
    PyDict.set (PyDict.update found d) "last_modified" (VInt (now request)) in
  PyDict.get merged "last_modified" = Some (VInt (now request))
  /\ (forall asdict,
         validate self request (VDict merged) = Raises (Invalid asdict) ->
         patch json_loads db_get db_update self request w
         = (Returns VNone,
            {| errors := errors w
                         ++ map (fun item => ("body", fst item, snd item))
                                asdict;
               status := Some "400 Bad Request";
               db := s1;
               self_record := Some found;
               calls := calls w ++ [Get record_id] |}))
  /\ (forall updated stored s2,
         validate self request (VDict merged) = Returns updated ->
         db_update record_id updated self user_id s1 = (Returns stored, s2) ->
         PyDict.get updated "last_modified" = Some (VInt (now request))
         /\ patch json_loads db_get db_update self request w
            = (Returns (VDict stored),
               {| errors := errors w;
                  status := status w;
                  db := s2;
                  self_record := Some found;
                  calls := calls w ++ [Get record_id;
                                       Update record_id updated] |})).
Proof.
  intros Hextra Hget Hbody merged.
  assert (Hmerged : PyDict.get merged "last_modified"
                    = Some (VInt (now request)))
    by apply PyDictFacts.get_set_same.
  split; [exact Hmerged|split].
  - intros asdict Hinvalid. run_method. rewrite Hget. cbn -[validate].
    rewrite Hbody. cbn -[validate]. fold merged. rewrite Hinvalid.
    rewrite add_body_errors_spec. reflexivity.
  - intros updated stored s2 Hvalid Hupdate. split.
    + destruct (Mapping_deserialize_base _ _ _ Hvalid) as [_ Hlm].
      specialize (Hlm Hextra). rewrite Hmerged in Hlm.
      destruct Hlm as (n & [= <-] & Hn). exact Hn.
    + run_method. rewrite Hget. cbn -[validate]. rewrite Hbody.
      cbn -[validate]. fold merged. rewrite Hvalid. cbn. rewrite Hupdate. cbn.
      now rewrite <- app_assoc.
Qed.

(** ** C10.  Whatever the body, [validate] answers for it what it
    answers for the body without the keys the schema does not declare:
    an undeclared key is neither an error nor kept, and removing it
    changes neither the record returned nor the error raised.  When
    [validate] returns a record, that record has no key besides the
    names the schema declares, an [_id] absent from the input is absent
    from it, and it is what [collection_post] hands to [create] and
    [put] to [update]. *)
Theorem validate_discards_undeclared_fields (w : world store) d :
  validate self request (VDict (PyDict.restrict (known_fields self) d))
  = validate self request (VDict d)
  /\ forall r,
       validate self request (VDict d) = Returns r ->
       (forall k, In k (PyDict.keys r) -> In k (known_fields self))
       /\ (~ In "_id" (map Colander.name extra) ->
           PyDict.get d "_id" = None -> ~ In "_id" (PyDict.keys r))
       /\ (deserialize json_loads (body request) = Returns (VDict d) ->
           calls (snd (collection_post json_loads db_create self request w))
           = calls w ++ [Create r]
           /\ calls (snd (put json_loads db_update self request w))
              = calls w ++ [Update record_id r]).
Proof.
  split.
  { unfold validate, known_fields.
    apply ColanderFacts.Mapping_deserialize_restrict. }
  intros r Hvalid. repeat split.
  - intros k Hk.
    exact (ColanderFacts.Mapping_deserialize_keys _ _ _ _ Hvalid Hk).
  - intros Hextra Hnone Hin.
    destruct (Mapping_deserialize_base _ _ _ Hvalid) as [Hid _].
    specialize (Hid Hextra Hnone).
    now apply PyDictFacts.get_none_not_key in Hid.
  - run_method. rewrite H. cbn -[validate]. rewrite Hvalid. cbn.
    destruct (db_create r self user_id (db w)) as [[created|e] s];
      cbn; [reflexivity|].
    destruct e; cbn; rewrite ?add_body_errors_spec; reflexivity.
  - run_method. rewrite H. cbn -[validate]. rewrite Hvalid. cbn.
    destruct (db_update record_id r self user_id (db w)) as [[updated|e] s];
      cbn; [reflexivity|].
    destruct e; cbn; rewrite ?add_body_errors_spec; reflexivity.
Qed.

End StampedResourceFacts.

(* ================================================================== *)
(** * Successive writes on the in-memory backend *)
(* ================================================================== *)

Module MemoryFacts.

Import Memory.

Lemma lookup_upsert l record_id r :
  lookup (upsert l record_id r) record_id = Some r.
Proof.
  induction l as [|[k old] rest IH]; simpl.
  - now rewrite String.eqb_refl.
  - destruct (String.eqb k record_id) eqn:E; simpl; now rewrite E.
Qed.

End MemoryFacts.

(** A decorated view that returns a record returned it undecorated. *)
Lemma exists_or_404_returned store (view : M store pyval) w x w' :
  exists_or_404 view w = (Returns (VDict x), w') ->
  view w = (Returns (VDict x), w').
Proof.
  unfold exists_or_404. destruct (view w) as [[v|e] w1]; [tauto|].
  destruct e; try tauto. cbn. discriminate.
Qed.

Lemma validates_or_400_returned store (view : M store pyval) w x w' :
  validates_or_400 view w = (Returns (VDict x), w') ->
  view w = (Returns (VDict x), w').
Proof.
  unfold validates_or_400. destruct (view w) as [[v|e] w1]; [tauto|].
  destruct e; try tauto.
  - cbn. discriminate.
  - unfold bind. rewrite add_body_errors_spec. cbn. discriminate.
Qed.

Section WritesFacts.

Variable extra : list Colander.SchemaNode.
Variable json_loads : string -> outcome pyval.

Hypothesis extra_fields : ~ In "last_modified" (map Colander.name extra).

Local Abbreviation self := (resource_with extra).

Lemma validated_stamp request d r :
  validate self request (VDict d) = Returns r ->
  PyDict.get d "last_modified" = None
  \/ PyDict.get d "last_modified" = Some (VInt (now request)) ->
  PyDict.get r "last_modified" = Some (VInt (now request)).
Proof.
  intros Hvalid Hd.
  destruct (Mapping_deserialize_base _ _ _ Hvalid) as [_ Hlm].
  specialize (Hlm extra_fields). destruct Hd as [Hd|Hd]; rewrite Hd in Hlm.
  - exact Hlm.
  - destruct Hlm as (n & [= <-] & Hn). exact Hn.
Qed.

Lemma run_write_stamped kind request w returned w' record_id :
  run_write json_loads self kind request w = (Returns (VDict returned), w') ->
  applied_to self record_id kind request returned = true ->
  stamped_by_clock json_loads self (kind, request) ->
  stored_last_modified self record_id w' = Some (VInt (now request)).
Proof.
  destruct kind; cbn [run_write stamped_by_clock fst snd applied_to].
  - intros Hrun Happlied (d & Hbody & Hd).
    apply validates_or_400_returned in Hrun. revert Hrun.
    unfold bind, lift, ret, db_call, set_record. rewrite Hbody.
    cbn -[validate].
    destruct (validate self request (VDict d)) as [r|e] eqn:Hvalid;
      [|discriminate].
    cbn. intros [= <- <-]. unfold stored_last_modified. cbn.
    rewrite PyDictFacts.get_set_same in Happlied.
    apply String.eqb_eq in Happlied. subst record_id.
    rewrite MemoryFacts.lookup_upsert, PyDictFacts.get_set. cbn.
    eapply validated_stamp; [eassumption|now left].
  - intros Hrun Happlied (d & Hbody & Hd).
    apply exists_or_404_returned, validates_or_400_returned in Hrun.
    revert Hrun. unfold bind, lift, ret, db_call, set_record. rewrite Hbody.
    cbn -[validate].
    destruct (validate self request (VDict d)) as [r|e] eqn:Hvalid;
      [|discriminate].
    cbn. intros [= <- <-]. unfold stored_last_modified. cbn.
    apply String.eqb_eq in Happlied. subst record_id.
    rewrite MemoryFacts.lookup_upsert, PyDictFacts.get_set. cbn.
    eapply validated_stamp; [eassumption|now left].
  - intros Hrun Happlied _.
    apply exists_or_404_returned, validates_or_400_returned in Hrun.
    revert Hrun. unfold bind, lift, ret, db_call, set_record, Memory.get.
    cbn -[validate].
    destruct (Memory.lookup _ _) as [found|]; cbn -[validate]; [|discriminate].
    destruct (deserialize json_loads (body request)) as [modified|e];
      cbn -[validate]; [|discriminate].
    destruct modified as [| | | | |d]; cbn -[validate]; try discriminate.
    destruct (validate self request _) as [r|e] eqn:Hvalid; [|discriminate].
    cbn. intros [= <- <-]. unfold stored_last_modified. cbn.
    apply String.eqb_eq in Happlied. subst record_id.
    rewrite MemoryFacts.lookup_upsert, PyDictFacts.get_set. cbn.
    eapply validated_stamp; [eassumption|right].
    apply PyDictFacts.get_set_same.
Qed.

Lemma run_writes_stamps record_id writes : forall w stamps,
  run_writes json_loads self record_id writes w = Some stamps ->
  Forall (stamped_by_clock json_loads self) writes ->
  stamps = map (fun write => now (snd write)) writes.
Proof.
  induction writes as [|[kind request] rest IH]; intros w stamps; simpl.
  - now intros [= <-].
  - destruct (run_write json_loads self kind request w) as [[v|e] w1] eqn:Hrun;
      [|discriminate].
    destruct v as [| | | | |returned]; try discriminate.
    destruct (applied_to self record_id kind request returned) eqn:Happlied;
      [|discriminate].
    intros Hrest Hall. inversion Hall as [|? ? Hfirst Hothers]; subst.
    rewrite (run_write_stamped _ _ _ _ Hrun Happlied Hfirst) in Hrest.
    destruct (run_writes json_loads self record_id rest w1) as [others|] eqn:Hr;
      [|discriminate].
    injection Hrest as <-. f_equal. eapply IH; eassumption.
Qed.

(** ** C3, as amended.  For every record and every sequence of
    successful post, put and patch requests applied to it, in which
    each post and put has a JSON object without [last_modified] as its
    body: the [last_modified] stored after each write is the clock
    reading of that write, so it never decreases from one write to the
    next as long as the clock readings do not. *)
Theorem last_modified_follows_clock record_id writes w stamps :
  run_writes json_loads self record_id writes w = Some stamps ->
  Forall (stamped_by_clock json_loads self) writes ->
  Sorted Z.le (map (fun write => now (snd write)) writes) ->
  stamps = map (fun write => now (snd write)) writes
  /\ Sorted Z.le stamps.
Proof.
  intros Hrun Hall Hclock.
  rewrite (run_writes_stamps _ _ Hrun Hall). split; [reflexivity|exact Hclock].
Qed.

End WritesFacts.

(* ================================================================== *)
(** * The theorems at concrete requests *)
(* ================================================================== *)

(** C7 for a get of the id 7 on an empty backend. *)
Lemma get_not_found_witness :
  get Memory.get plain_resource (request_of "" "7" 1000)
      (fresh_world Memory.empty)
  = (Returns VNone,
     {| errors := [("path", "id", Text "7")];
        status := Some "404 Resource Not Found";
        db := Memory.empty;
        self_record := None;
        calls := [Get "7"] |}).
Proof.
  apply (@get_not_found Memory.store Memory.get plain_resource
           (request_of "" "7" 1000) (fresh_world Memory.empty) "7"
           Memory.empty).
  reflexivity.
Defined.

(** C6 for a body that is not JSON and for a body whose
    [last_modified] is not a number. *)
Lemma collection_post_rejects_bad_body_witness :
  (exists msg,
      collection_post Json.loads Memory.create plain_resource
                      (request_of "{" "" 1000) (fresh_world Memory.empty)
      = (Returns VNone,
         {| errors := [("body", "body", Text msg)];
            status := Some "400 Bad Request";
            db := Memory.empty;
            self_record := None;
            calls := [] |}))
  /\ collection_post Json.loads Memory.create plain_resource
                     (request_of (json_object "last_modified"
                                              (Json.quoted "abc")) "" 1000)
                     (fresh_world Memory.empty)
     = (Returns VNone,
        {| errors := [("body", "last_modified", NotANumber (VStr "abc"))];
           status := Some "400 Bad Request";
           db := Memory.empty;
           self_record := None;
           calls := [] |})
  /\ [("last_modified", NotANumber (VStr "abc"))]
     = flat_map (Colander.child_error 1000 [("last_modified", VStr "abc")])
                (mapping plain_resource).
Proof.
  split; [|split].
  - eexists.
    apply (proj1 (@collection_post_rejects_bad_body
                    Json.loads Memory.store Memory.create plain_resource
                    (request_of "{" "" 1000) (fresh_world Memory.empty))).
    reflexivity.
  - apply (proj1 (proj2 (@collection_post_rejects_bad_body
                    Json.loads Memory.store Memory.create plain_resource
                    (request_of (json_object "last_modified"
                                             (Json.quoted "abc")) "" 1000)
                    (fresh_world Memory.empty)))
                 (VDict [("last_modified", VStr "abc")])
                 [("last_modified", NotANumber (VStr "abc"))]);
      reflexivity.
  - apply (proj2 (proj2 (@collection_post_rejects_bad_body
                    Json.loads Memory.store Memory.create plain_resource
                    (request_of (json_object "last_modified"
                                             (Json.quoted "abc")) "" 1000)
                    (fresh_world Memory.empty)))
                 [("last_modified", VStr "abc")]
                 [("last_modified", NotANumber (VStr "abc"))]).
    + repeat constructor; simpl; intuition discriminate.
    + reflexivity.
Defined.

(** C5 for a patch, at second 2000, of the record of id 0 with a body
    that asks for [last_modified] 5: the record is stored with 2000. *)
Lemma patch_merges_stamps_validates_updates_witness :
  patch Json.loads Memory.get Memory.update plain_resource
        (request_of (json_object "last_modified" "5") "0" 2000)
        one_record_world
  = (Returns (VDict [("_id", VStr "0"); ("last_modified", VInt 2000)]),
     {| errors := [];
        status := None;
        db := {| Memory.records :=
                   [("0", [("_id", VStr "0"); ("last_modified", VInt 2000)])];
                 Memory.counter := 1 |};
        self_record := Some [("last_modified", VInt 1000); ("_id", VStr "0")];
        calls := [Create [("last_modified", VInt 1000)];
                  Get "0";
                  Update "0" [("_id", VStr "0");
                              ("last_modified", VInt 2000)]] |}).
Proof.
  destruct (@patch_merges_stamps_validates_updates
              [] Json.loads Memory.store Memory.get Memory.update
              (request_of (json_object "last_modified" "5") "0" 2000)
              one_record_world
              [("last_modified", VInt 1000); ("_id", VStr "0")]
              (db one_record_world)
              [("last_modified", VInt 5)])
    as (_ & _ & Hvalid).
  - simpl. tauto.
  - reflexivity.
  - reflexivity.
  - apply (Hvalid [("_id", VStr "0"); ("last_modified", VInt 2000)]
                  [("_id", VStr "0"); ("last_modified", VInt 2000)]
                  {| Memory.records :=
                       [("0", [("_id", VStr "0");
                               ("last_modified", VInt 2000)])];
                     Memory.counter := 1 |});
      reflexivity.
Defined.

(** C5 as stated fails: a patch served in the second in which the
    record was last written stores the [last_modified] it already
    had. *)
Lemma patch_in_the_same_second :
  stored_last_modified plain_resource "0" one_record_world
  = Some (VInt 1000)
  /\ fst (patch Json.loads Memory.get Memory.update plain_resource
                (request_of "" "0" 1000) one_record_world)
     = Returns (VDict [("_id", VStr "0"); ("last_modified", VInt 1000)])
  /\ stored_last_modified
       plain_resource "0"
       (snd (patch Json.loads Memory.get Memory.update plain_resource
                   (request_of "" "0" 1000) one_record_world))
     = Some (VInt 1000).
Proof. repeat split; reflexivity. Qed.

(** C10 for a record with an undeclared [title] and no [_id]. *)
Lemma validate_discards_undeclared_fields_witness :
  validate plain_resource
           (request_of (json_object "title" (Json.quoted "x")) "0" 1000)
           (VDict (PyDict.restrict ["_id"; "last_modified"]
                                   [("title", VStr "x")]))
  = validate plain_resource
             (request_of (json_object "title" (Json.quoted "x")) "0" 1000)
             (VDict [("title", VStr "x")])
  /\ validate plain_resource
              (request_of (json_object "title" (Json.quoted "x")) "0" 1000)
              (VDict [("title", VStr "x")])
     = Returns [("last_modified", VInt 1000)]
  /\ ~ In "_id" (PyDict.keys [("last_modified", VInt 1000)])
  /\ calls (snd (collection_post
                   Json.loads Memory.create plain_resource
                   (request_of (json_object "title" (Json.quoted "x"))
                               "0" 1000)
                   (fresh_world Memory.empty)))
     = [Create [("last_modified", VInt 1000)]].
Proof.
  destruct (@validate_discards_undeclared_fields
              [] Json.loads Memory.store Memory.create
              Memory.update
              (request_of (json_object "title" (Json.quoted "x")) "0" 1000)
              (fresh_world Memory.empty)
              [("title", VStr "x")])
    as (Hrestrict & Hrecord).
  destruct (Hrecord [("last_modified", VInt 1000)] eq_refl)
    as (_ & Hid & Hcalls).
  split; [exact Hrestrict|split; [reflexivity|split]].
  - apply Hid; [simpl; tauto|reflexivity].
  - apply Hcalls. reflexivity.
Defined.

(** C3 for a post, a patch and a put of the record of id 0. *)
Lemma last_modified_follows_clock_witness :
  [1000; 1000; 1003]%Z
  = map (fun write : write_kind * Request => now (snd write))
        [(Post, request_of "" "" 1000);
         (Patch, request_of (json_object "last_modified" "5") "0" 1000);
         (Put, request_of "" "0" 1003)]
  /\ Sorted Z.le [1000; 1000; 1003]%Z.
Proof.
  apply (@last_modified_follows_clock
           [] Json.loads (fun H => H) "0"
           [(Post, request_of "" "" 1000);
            (Patch, request_of (json_object "last_modified" "5") "0" 1000);
            (Put, request_of "" "0" 1003)]
           (fresh_world Memory.empty)).
  - reflexivity.
  - repeat constructor; exists []; split; reflexivity.
  - repeat constructor; simpl; lia.
Defined.

(** C3 as stated fails: a put whose body gives [last_modified] 1 is
    stored with 1, after a post that stored 1000. *)
Lemma put_lowers_last_modified :
  run_writes Json.loads plain_resource "0"
             [(Post, request_of "" "" 1000);
              (Put, request_of (json_object "last_modified" "1") "0" 1001)]
             (fresh_world Memory.empty)
  = Some [1000; 1]%Z
  /\ ~ Sorted Z.le [1000; 1]%Z.
Proof.
  split; [reflexivity|].
  intros H. inversion H as [|? ? _ Hhd]; subst.
  inversion Hhd as [|? ? Hle]; subst. lia.
Qed.

(* ================================================================== *)
(** * Further properties of the query translator *)
(* ================================================================== *)

Module SortingFacts.

Import SortPattern.

Lemma append_sorting_app sorting field :
  append_sorting sorting field = sorting ++ append_sorting [] field.
Proof.
  unfold append_sorting.
  destruct (Re.re_match sort_pattern field) as [[|order [|w [|x l]]]|];
    simpl; now rewrite ?app_nil_r.
Qed.

Lemma fold_append_sorting fields : forall sorting,
  fold_left append_sorting fields sorting
  = sorting ++ flat_map (append_sorting []) fields.
Proof.
  induction fields as [|f rest IH]; intros sorting; simpl.
  - now rewrite app_nil_r.
  - rewrite IH, (append_sorting_app sorting), app_assoc. reflexivity.
Qed.

Lemma split_not_nil sep s : PyStr.split sep s <> [].
Proof.
  destruct s as [|c r]; simpl; [discriminate|].
  destruct (Ascii.eqb c sep); [discriminate|].
  destruct (PyStr.split sep r); discriminate.
Qed.

Lemma split_app sep a b :
  PyStr.split sep (a ++ String sep b) = PyStr.split sep a ++ PyStr.split sep b.
Proof.
  induction a as [|c a IH]; simpl.
  - now rewrite Ascii.eqb_refl.
  - destruct (Ascii.eqb c sep); [now rewrite IH|].
    rewrite IH. pose proof (split_not_nil sep a) as Hne.
    destruct (PyStr.split sep a) as [|h t]; [contradiction|reflexivity].
Qed.

Lemma all_word_word w : Literal.all_word w = true -> word w = w.
Proof.
  induction w as [|c r IH]; simpl; [reflexivity|].
  destruct (PyStr.is_word c); simpl; [|discriminate].
  intros H. now rewrite IH.
Qed.

Lemma word_all_word s : Literal.all_word (word s) = true.
Proof.
  induction s as [|c r IH]; simpl; [reflexivity|].
  destruct (PyStr.is_word c) eqn:E; simpl; [now rewrite E|reflexivity].
Qed.

Lemma comma_not_word c : PyStr.is_word c = true -> Ascii.eqb c "," = false.
Proof. destruct c as [[] [] [] [] [] [] [] []]; vm_compute; congruence. Qed.

Lemma split_word w :
  Literal.all_word w = true -> PyStr.split "," w = [w].
Proof.
  induction w as [|c r IH]; simpl; [reflexivity|].
  destruct (PyStr.is_word c) eqn:E; simpl; [|discriminate].
  intros H. rewrite (comma_not_word _ E), (IH H). reflexivity.
Qed.

Lemma word_not_space c : PyStr.is_word c = true -> PyStr.is_space c = false.
Proof. destruct c as [[] [] [] [] [] [] [] []]; vm_compute; congruence. Qed.

Lemma word_not_sign c : PyStr.is_word c = true -> is_sign c = false.
Proof. destruct c as [[] [] [] [] [] [] [] []]; vm_compute; congruence. Qed.

Lemma scan_name w :
  Literal.all_word w = true -> w <> "" -> scan w = Some [""; w].
Proof.
  intros Hword Hne. destruct w as [|c r]; [contradiction|].
  pose proof Hword as Hc. cbn [Literal.all_word] in Hc.
  apply andb_prop in Hc. destruct Hc as [Hc _].
  unfold scan, skip_space, sign.
  rewrite (word_not_space _ Hc), (word_not_sign _ Hc).
  now rewrite (all_word_word _ Hword).
Qed.

Lemma scan_signed c w :
  is_sign c = true -> Literal.all_word w = true -> w <> "" ->
  scan (String c w) = Some [String c ""; w].
Proof.
  intros Hsign Hword Hne. unfold scan, skip_space.
  destruct (PyStr.is_space c) eqn:Hspace.
  - now rewrite (ReFacts.space_not_sign _ Hspace) in Hsign.
  - unfold sign. rewrite Hsign, (all_word_word _ Hword).
    destruct w; [contradiction|reflexivity].
Qed.

(** What one token contributes, read off the scan. *)
Lemma append_sorting_scan field :
  append_sorting [] field
  = match scan field with
    | Some [order; w] => [(w, if String.eqb order "-" then (-1)%Z else 1%Z)]
    | _ => []
    end.
Proof.
  unfold append_sorting. rewrite ReFacts.re_match_sort_pattern.
  destruct (scan field) as [[|order [|w [|x l]]]|]; reflexivity.
Qed.

End SortingFacts.

(** ** X1.  A query without a [sort] parameter has no sort
    directive. *)
Theorem extract_sorting_without_sort (queryparams : multidict) :
  ~ In "sort" (map fst queryparams) ->
  _extract_sorting queryparams = [].
Proof.
  intros Hnot. unfold _extract_sorting.
  assert (H : multidict_get queryparams "sort" "" = "").
  { generalize dependent queryparams.
    induction queryparams as [|[k v] rest IH]; simpl; [reflexivity|].
    intros Hnot. destruct (String.eqb_spec k "sort") as [->|_].
    - exfalso. apply Hnot. now left.
    - apply IH. intros Hin. apply Hnot. now right. }
  rewrite H. reflexivity.
Qed.

Lemma extract_sorting_without_sort_witness :
  _extract_sorting [("foo", "1"); ("since", "100")] = [].
Proof.
  apply (@extract_sorting_without_sort [("foo", "1"); ("since", "100")]).
  simpl. intuition discriminate.
Defined.

(** ** X2.  The directives of a [sort] value made of two parts joined
    by a comma are the directives of the first part followed by those
    of the second: the order of the tokens is the order of the
    directives. *)
Theorem extract_sorting_comma (a b : string) :
  _extract_sorting [("sort", (a ++ String "," b)%string)]
  = _extract_sorting [("sort", a)] ++ _extract_sorting [("sort", b)].
Proof.
  unfold _extract_sorting. cbn [multidict_get]. rewrite String.eqb_refl.
  rewrite SortingFacts.split_app, !SortingFacts.fold_append_sorting.
  cbn [app]. apply flat_map_app.
Qed.

(** ** X3.  A token that is a name of word characters gives the
    ascending directive for that name, also behind a [+]; behind a [-]
    it gives the descending one. *)
Theorem extract_sorting_signed_name (w : string) :
  Literal.all_word w = true -> w <> "" ->
  _extract_sorting [("sort", w)] = [(w, 1%Z)]
  /\ _extract_sorting [("sort", String "+" w)] = [(w, 1%Z)]
  /\ _extract_sorting [("sort", String "-" w)] = [(w, (-1)%Z)].
Proof.
  intros Hword Hne.
  assert (Hplus : Literal.all_word (String "+" w) = false) by reflexivity.
  unfold _extract_sorting. cbn [multidict_get]. rewrite String.eqb_refl.
  cbn [PyStr.split]. change (Ascii.eqb "+" ",") with false.
  change (Ascii.eqb "-" ",") with false. cbv iota.
  rewrite (SortingFacts.split_word _ Hword). cbn [fold_left].
  rewrite !SortingFacts.append_sorting_scan.
  rewrite (SortingFacts.scan_name Hword Hne).
  rewrite (@SortingFacts.scan_signed "+" w eq_refl Hword Hne).
  rewrite (@SortingFacts.scan_signed "-" w eq_refl Hword Hne).
  repeat split.
Qed.

Lemma extract_sorting_signed_name_witness :
  _extract_sorting [("sort", "title")] = [("title", 1%Z)]
  /\ _extract_sorting [("sort", "+title")] = [("title", 1%Z)]
  /\ _extract_sorting [("sort", "-title")] = [("title", (-1)%Z)].
Proof.
  apply (@extract_sorting_signed_name "title"); [reflexivity|discriminate].
Defined.

(** ** X4.  For a query whose [sort] value is plain text (ASCII
    without the separators 0x1c to 0x1f, where the classes of the
    pattern do not depend on the interpreter), every directive of
    [_extract_sorting] has a non-empty field made of ASCII letters,
    digits and underscores, and the direction 1 or -1. *)
Theorem extract_sorting_directives (queryparams : multidict) :
  PyStr.plain (multidict_get queryparams "sort" "") = true ->
  Forall (fun directive : sort_directive =>
            fst directive <> ""
            /\ Literal.all_word (fst directive) = true
            /\ (snd directive = 1%Z \/ snd directive = (-1)%Z))
         (_extract_sorting queryparams).
Proof.
  intros _. unfold _extract_sorting. rewrite SortingFacts.fold_append_sorting.
  cbn [app]. apply Forall_flat_map, Forall_forall. intros field _.
  rewrite SortingFacts.append_sorting_scan. unfold SortPattern.scan.
  destruct (SortPattern.sign _) as [order rest].
  destruct (SortPattern.word rest) as [|c r] eqn:Hw; cbn [PyStr.is_empty].
  - constructor.
  - constructor; [|constructor]. cbn [fst snd]. repeat split.
    + discriminate.
    + rewrite <- Hw. apply SortingFacts.word_all_word.
    + destruct (String.eqb order "-"); [now right|now left].
Qed.

(** X4 for a [sort] value with a descending field, an empty token, a
    signed field behind a blank and a token without a name. *)
Lemma extract_sorting_directives_witness :
  _extract_sorting [("sort", "-title desc,, +x,!")]
  = [("title", (-1)%Z); ("x", 1%Z)]
  /\ Forall (fun directive : sort_directive =>
               fst directive <> ""
               /\ Literal.all_word (fst directive) = true
               /\ (snd directive = 1%Z \/ snd directive = (-1)%Z))
            (_extract_sorting [("sort", "-title desc,, +x,!")]).
Proof.
  split; [reflexivity|].
  apply (@extract_sorting_directives [("sort", "-title desc,, +x,!")]).
  reflexivity.
Defined.

Section MoreFilterFacts.

Variable literal_text : string -> outcome pyval.
Variable known : list string.
Variable modified : string.

Local Abbreviation decode := (__decode_filter_value literal_text).
Local Abbreviation extract := (_extract_filters literal_text known modified).

(** ** X5.  The decoder absorbs every [ValueError] of the parser:
    whatever the parser does, neither [__decode_filter_value] nor
    [_extract_filters] raises a [ValueError]. *)
Theorem decode_never_raises_value_error :
  (forall raw msg, decode raw <> Raises (ValueError msg))
  /\ (forall queryparams msg, extract queryparams <> Raises (ValueError msg)).
Proof.
  assert (Hdecode : forall raw msg, decode raw <> Raises (ValueError msg)).
  { intros raw msg. unfold __decode_filter_value.
    destruct (PyStr.mem (PyStr.lower raw) ["on"; "true"; "yes"; "1"]);
      [discriminate|].
    destruct (PyStr.mem (PyStr.lower raw) ["off"; "false"; "no"; "0"]);
      [discriminate|].
    cbn [literal_eval]. destruct (literal_text raw) as [v|e]; [discriminate|].
    destruct e; discriminate. }
  split; [exact Hdecode|].
  induction queryparams as [|[param raw] rest IH]; intros msg.
  - discriminate.
  - rewrite extract_cons. destruct (decode raw) as [v|e] eqn:Hraw; simpl.
    + destruct (extract rest) as [fs|e] eqn:Hrest; simpl; [discriminate|].
      intros [= ->]. now apply (IH msg).
    + intros [= ->]. now apply (Hdecode raw msg).
Qed.

(** ** X6.  Every filter [_extract_filters] returns is either an
    equality on a known field or the lower bound on the modification
    field, and there are at most two filters per parameter. *)
Theorem extract_filters_shape queryparams filters :
  extract queryparams = Returns filters ->
  Forall (fun f : filter =>
            (snd f = "==" /\ In (fst (fst f)) known)
            \/ (snd f = ">=" /\ fst (fst f) = modified))
         filters
  /\ (List.length filters <= 2 * List.length queryparams)%nat.
Proof.
  revert filters.
  induction queryparams as [|[param raw] rest IH]; intros filters.
  - intros [= <-]. split; [constructor|simpl; lia].
  - rewrite extract_cons. destruct (decode raw) as [v|e]; simpl;
      [|discriminate].
    destruct (extract rest) as [fs|e]; simpl; [|discriminate].
    intros [= <-]. destruct (IH fs eq_refl) as [Hshape Hlen].
    unfold param_filters, append_filters.
    destruct (PyStr.mem param known) eqn:Hknown;
      destruct (String.eqb param "since"); simpl;
      (split; [|simpl in *; lia]);
      repeat (constructor; simpl;
              try (left; split; [reflexivity|
                                  now apply PyDictFacts.mem_In]);
              try (right; split; reflexivity));
      assumption.
Qed.

(** ** X7.  A parameter that is neither a known field nor [since]
    contributes no filter, provided its value decodes: the filters are
    those of the query without it. *)
Theorem extract_filters_ignores_unknown before param raw after v :
  PyStr.mem param known = false ->
  param <> "since" ->
  decode raw = Returns v ->
  extract (before ++ (param, raw) :: after) = extract (before ++ after).
Proof.
  intros Hknown Hsince Hraw. apply String.eqb_neq in Hsince.
  rewrite !extract_app, extract_cons, Hraw.
  destruct (extract before) as [fs1|e]; simpl; [|reflexivity].
  unfold param_filters, append_filters. rewrite Hknown, Hsince.
  destruct (extract after); reflexivity.
Qed.

End MoreFilterFacts.

Lemma extract_filters_shape_witness :
  Forall (fun f : filter =>
            (snd f = "==" /\ In (fst (fst f)) foo_fields)
            \/ (snd f = ">=" /\ fst (fst f) = "last_modified"))
         [("foo", VBool true, "=="); ("last_modified", VInt 100, ">=")]
  /\ (List.length [("foo", VBool true, "==");
                   ("last_modified", VInt 100, ">=")]
      <= 2 * List.length [("foo", "1"); ("since", "100")])%nat.
Proof.
  apply (@extract_filters_shape Literal.literal_text foo_fields
           "last_modified" [("foo", "1"); ("since", "100")]).
  reflexivity.
Defined.

Lemma extract_filters_ignores_unknown_witness :
  _extract_filters Literal.literal_text foo_fields "last_modified"
                   ([("foo", "1")] ++ ("sort", "title") :: [("since", "100")])
  = _extract_filters Literal.literal_text foo_fields "last_modified"
                     ([("foo", "1")] ++ [("since", "100")]).
Proof.
  apply (@extract_filters_ignores_unknown
           Literal.literal_text foo_fields "last_modified"
           [("foo", "1")] "sort" "title" [("since", "100")] (VStr "title")).
  - reflexivity.
  - discriminate.
  - reflexivity.
Defined.

(* ================================================================== *)
(** * Further properties of the decorators and the end-points *)
(* ================================================================== *)

Section DecoratorFacts.

Variable store : Type.
Variable view : M store pyval.

Lemma exists_or_404_not_found_free (w : world store) msg :
  fst (exists_or_404 view w) <> Raises (RecordNotFoundError msg).
Proof.
  unfold exists_or_404. destruct (view w) as [[v|e] w1]; [discriminate|].
  destruct e; discriminate.
Qed.

Lemma validates_or_400_invalid_free (w : world store) e :
  fst (validates_or_400 view w) = Raises e ->
  fst (view w) = Raises e
  /\ (forall msg, e <> ValueError msg) /\ (forall d, e <> Invalid d).
Proof.
  unfold validates_or_400. destruct (view w) as [[v|x] w1]; [discriminate|].
  destruct x.
  - cbn. discriminate.
  - cbn. intros [= <-]. repeat split; discriminate.
  - cbn. intros [= <-]. repeat split; discriminate.
  - unfold bind. rewrite add_body_errors_spec. cbn. discriminate.
  - cbn. intros [= <-]. repeat split; discriminate.
  - cbn. intros [= <-]. repeat split; discriminate.
Qed.

Lemma exists_or_404_raises (w : world store) e :
  fst (exists_or_404 view w) = Raises e -> fst (view w) = Raises e.
Proof.
  unfold exists_or_404. destruct (view w) as [[v|x] w1]; [discriminate|].
  destruct x; cbn; try tauto. discriminate.
Qed.

(** ** X9.  The two decorators leave alone what they do not map: when
    the view returns a value, or raises an exception other than
    [ValueError], [colander.Invalid] and [RecordNotFoundError], the
    decorated view does the same and leaves the world as the view left
    it (no error entry, no status). *)
Theorem decorators_are_transparent (w w' : world store) r :
  view w = (r, w') ->
  match r with
  | Raises (ValueError _) | Raises (Invalid _)
  | Raises (RecordNotFoundError _) => False
  | _ => True
  end ->
  validates_or_400 view w = (r, w')
  /\ exists_or_404 view w = (r, w')
  /\ exists_or_404 (validates_or_400 view) w = (r, w').
Proof.
  intros Hview Hr. unfold exists_or_404, validates_or_400. rewrite Hview.
  destruct r as [v|e]; [repeat split|].
  destruct e; try contradiction; repeat split.
Qed.

End DecoratorFacts.

Lemma decorators_are_transparent_witness :
  exists_or_404 (validates_or_400 (lift (Raises (TypeError "not a mapping"))))
                (fresh_world Memory.empty)
  = (Raises (TypeError "not a mapping"), fresh_world Memory.empty).
Proof.
  apply (@decorators_are_transparent
           Memory.store (lift (Raises (TypeError "not a mapping")))
           (fresh_world Memory.empty) (fresh_world Memory.empty)
           (Raises (TypeError "not a mapping")) eq_refl I).
Defined.

Section MoreEndPointFacts.

Variable literal_text : string -> outcome pyval.
Variable json_loads : string -> outcome pyval.
Variable store : Type.
Variable db_get_all :
  list filter -> list sort_directive -> BaseResource -> string ->
  store -> outcome (list record) * store.
Variable db_get :
  string -> BaseResource -> string -> store -> outcome record * store.
Variable db_create :
  record -> BaseResource -> string -> store -> outcome record * store.
Variable db_update :
  string -> record -> BaseResource -> string -> store ->
  outcome record * store.
Variable db_delete :
  string -> BaseResource -> string -> store -> outcome record * store.
Variable self : BaseResource.
Variable request : Request.

Local Abbreviation record_id := (matchdict_id request).
Local Abbreviation user_id := (authenticated_userid request).

(** ** X8.  Whatever the backend, the parser and the body do, no
    end-point lets an exception it maps escape: [put] and [patch] never
    raise [ValueError], [colander.Invalid] or [RecordNotFoundError],
    [collection_post] never raises the first two, [get] and [delete]
    never raise the third. *)
Theorem end_points_never_raise_mapped (w : world store) :
  (forall e, fst (put json_loads db_update self request w) = Raises e
             \/ fst (patch json_loads db_get db_update self request w)
                = Raises e ->
             (forall msg, e <> ValueError msg)
             /\ (forall d, e <> Invalid d)
             /\ (forall msg, e <> RecordNotFoundError msg))
  /\ (forall e, fst (collection_post json_loads db_create self request w)
                = Raises e ->
                (forall msg, e <> ValueError msg) /\ (forall d, e <> Invalid d))
  /\ (forall e, fst (get db_get self request w) = Raises e
                \/ fst (delete db_delete self request w) = Raises e ->
                forall msg, e <> RecordNotFoundError msg).
Proof.
  split; [|split].
  - intros e He.
    assert (Hboth : forall view : M store pyval,
               fst (exists_or_404 (validates_or_400 view) w) = Raises e ->
               (forall msg, e <> ValueError msg)
               /\ (forall d, e <> Invalid d)
               /\ (forall msg, e <> RecordNotFoundError msg)).
    { intros view H. pose proof (exists_or_404_raises _ _ H) as H1.
      destruct (validates_or_400_invalid_free _ _ H1) as (_ & Hv & Hi).
      repeat split; try assumption. intros msg ->.
      now apply (exists_or_404_not_found_free _ _ H). }
    destruct He as [He|He]; exact (Hboth _ He).
  - intros e He. unfold collection_post in He.
    destruct (validates_or_400_invalid_free _ _ He) as (_ & Hv & Hi).
    now split.
  - intros e [He|He] msg ->;
      now apply (exists_or_404_not_found_free _ _ He).
Qed.

(** ** X10.  [collection_get] hands the filters and the sorting of the
    query to [get_all] and answers with the records under [items] and
    their number under [meta.total]; it records no error.  When the
    filters cannot be extracted the exception leaves [collection_get]
    and the backend is not called. *)
Theorem collection_get_lists (w : world store) :
  (forall filters records s,
      _extract_filters literal_text (known_fields self)
                       (modified_field self) (GET request)
      = Returns filters ->
      db_get_all filters (_extract_sorting (GET request)) self user_id (db w)
      = (Returns records, s) ->
      collection_get literal_text db_get_all self request w
      = (Returns (VDict [("items", VList (map VDict records));
                         ("meta",
                          VDict [("total",
                                  VInt (Z.of_nat (List.length records)))])]),
         {| errors := errors w;
            status := status w;
            db := s;
            self_record := self_record w;
            calls := calls w
                     ++ [GetAll filters (_extract_sorting (GET request))] |}))
  /\ (forall e,
         _extract_filters literal_text (known_fields self)
                          (modified_field self) (GET request)
         = Raises e ->
         collection_get literal_text db_get_all self request w
         = (Raises e, w)).
Proof.
  split.
  - intros filters records s Hfilters Hall.
    unfold collection_get, bind, lift, ret, db_call. rewrite Hfilters, Hall.
    reflexivity.
  - intros e Hfilters. unfold collection_get, bind, lift.
    now rewrite Hfilters.
Qed.

(** ** X11.  The decorator of [collection_post] also covers the call to
    the backend: a [ValueError] raised by [create] for a valid record
    is answered like a bad body, with status 400 and one [body]
    entry. *)
Theorem collection_post_backend_value_error (w : world store)
        new_record validated msg s :
  deserialize json_loads (body request) = Returns new_record ->
  validate self request new_record = Returns validated ->
  db_create validated self user_id (db w) = (Raises (ValueError msg), s) ->
  collection_post json_loads db_create self request w
  = (Returns VNone,
     {| errors := errors w ++ [("body", "body", Text msg)];
        status := Some "400 Bad Request";
        db := s;
        self_record := self_record w;
        calls := calls w ++ [Create validated] |}).
Proof.
  intros Hbody Hvalid Hcreate. run_method. rewrite Hbody.
  cbn -[validate]. rewrite Hvalid. cbn. rewrite Hcreate. reflexivity.
Qed.

(** ** X12.  [delete] returns the record the backend returns and keeps
    it in [self.record]; when the backend raises the record-not-found
    error it answers 404 with one [path] entry on [id]. *)
Theorem delete_record_or_404 (w : world store) :
  (forall deleted s,
      db_delete record_id self user_id (db w) = (Returns deleted, s) ->
      delete db_delete self request w
      = (Returns (VDict deleted),
         {| errors := errors w;
            status := status w;
            db := s;
            self_record := Some deleted;
            calls := calls w ++ [Delete record_id] |}))
  /\ (forall msg s,
         db_delete record_id self user_id (db w)
         = (Raises (RecordNotFoundError msg), s) ->
         delete db_delete self request w
         = (Returns VNone,
            {| errors := errors w ++ [("path", "id", Text msg)];
               status := Some "404 Resource Not Found";
               db := s;
               self_record := self_record w;
               calls := calls w ++ [Delete record_id] |})).
Proof.
  split.
  - intros deleted s H. unfold delete. run_method. rewrite H. reflexivity.
  - intros msg s H. unfold delete. run_method. rewrite H. reflexivity.
Qed.

(** ** X13.  When the backend does not find the record, [patch] answers
    404 after the single call to [get]: the body is not looked at and
    nothing is updated. *)
Theorem patch_not_found (w : world store) msg s :
  db_get record_id self user_id (db w)
  = (Raises (RecordNotFoundError msg), s) ->
  patch json_loads db_get db_update self request w
  = (Returns VNone,
     {| errors := errors w ++ [("path", "id", Text msg)];
        status := Some "404 Resource Not Found";
        db := s;
        self_record := self_record w;
        calls := calls w ++ [Get record_id] |}).
Proof. intros H. run_method. rewrite H. reflexivity. Qed.

(** ** X14.  A body that is JSON but not an object cannot be passed as
    keyword arguments: [patch] raises [TypeError], which neither
    decorator maps, after it got the record and before any update. *)
Theorem patch_body_not_an_object (w : world store) found s modified :
  db_get record_id self user_id (db w) = (Returns found, s) ->
  deserialize json_loads (body request) = Returns modified ->
  (forall d, modified <> VDict d) ->
  exists msg,
    patch json_loads db_get db_update self request w
    = (Raises (TypeError msg),
       {| errors := errors w;
          status := status w;
          db := s;
          self_record := Some found;
          calls := calls w ++ [Get record_id] |}).
Proof.
  intros Hget Hbody Hnot. eexists. run_method. rewrite Hget.
  cbn -[validate]. rewrite Hbody. cbn -[validate].
  destruct modified; try reflexivity. now destruct (Hnot d).
Qed.

(** ** X15.  [put] does not look the record up: it validates the body
    and calls [update].  A body the schema rejects is answered 400
    without any call to the backend; a record-not-found error of
    [update] is answered 404. *)
Theorem put_rejects_or_404 (w : world store) new_record :
  deserialize json_loads (body request) = Returns new_record ->
  (forall asdict,
      validate self request new_record = Raises (Invalid asdict) ->
      put json_loads db_update self request w
      = (Returns VNone,
         {| errors := errors w
                      ++ map (fun item => ("body", fst item, snd item))
                             asdict;
            status := Some "400 Bad Request";
            db := db w;
            self_record := self_record w;
            calls := calls w |}))
  /\ (forall validated msg s,
         validate self request new_record = Returns validated ->
         db_update record_id validated self user_id (db w)
         = (Raises (RecordNotFoundError msg), s) ->
         put json_loads db_update self request w
         = (Returns VNone,
            {| errors := errors w ++ [("path", "id", Text msg)];
               status := Some "404 Resource Not Found";
               db := s;
               self_record := self_record w;
               calls := calls w ++ [Update record_id validated] |})).
Proof.
  intros Hbody. split.
  - intros asdict Hinvalid. run_method. rewrite Hbody. cbn -[validate].
    rewrite Hinvalid. unfold bind. rewrite add_body_errors_spec. reflexivity.
  - intros validated msg s Hvalid Hupdate. run_method. rewrite Hbody.
    cbn -[validate]. rewrite Hvalid. cbn. rewrite Hupdate. reflexivity.
Qed.

(** ** X16.  Whatever the schema, a body that is JSON but not an object
    is a validation error for [collection_post] and [put]: status 400
    and one [body] entry, on the empty field name, and no call to the
    backend. *)
Theorem post_and_put_body_not_an_object (w : world store) new_record :
  deserialize json_loads (body request) = Returns new_record ->
  (forall d, new_record <> VDict d) ->
  let answer :=
    (Returns VNone,
     {| errors := errors w ++ [("body", "", NotAMapping new_record)];
        status := Some "400 Bad Request";
        db := db w;
        self_record := self_record w;
        calls := calls w |}) in
  collection_post json_loads db_create self request w = answer
  /\ put json_loads db_update self request w = answer.
Proof.
  intros Hbody Hnot answer. subst answer.
  split; run_method; rewrite Hbody;
    (destruct new_record; try reflexivity; now destruct (Hnot d)).
Qed.

(** ** X17.  A body that is not UTF-8 is a [ValueError] before any
    JSON is parsed: whatever the parser, [collection_post] and [put]
    answer 400 with one [body] entry and do not call the backend. *)
Theorem post_and_put_body_not_utf8 (w : world store) :
  Utf8.valid (body request) = false ->
  exists msg,
    let answer :=
      (Returns VNone,
       {| errors := errors w ++ [("body", "body", Text msg)];
          status := Some "400 Bad Request";
          db := db w;
          self_record := self_record w;
          calls := calls w |}) in
    collection_post json_loads db_create self request w = answer
    /\ put json_loads db_update self request w = answer.
Proof.
  intros Hbody. eexists.
  split; run_method; unfold deserialize, Utf8.decode; rewrite Hbody;
    reflexivity.
Qed.

End MoreEndPointFacts.

(* ================================================================== *)
(** * Further properties of the base schema *)
(* ================================================================== *)

Section MoreBaseSchemaFacts.

Import Colander.

Local Abbreviation self := (resource_with []).

(** Open [validate] down to the round of the [_id] child. *)
Ltac first_round :=
  unfold validate, Mapping_deserialize;
  cbn [mapping resource_with app RessourceSchema impl_loop];
  unfold impl_step at 1, deserialize at 1, SchemaNode_deserialize, when_null;
  cbn [class name missing typ _id value error result].

(** The [_id] child is deserialized without the clock. *)
Lemma step_id_clock now1 now2 st :
  impl_step now1 st _id = impl_step now2 st _id.
Proof. reflexivity. Qed.

(** ** X18.  On the base schema, for a body without [last_modified]:
    when it has no [_id], the validated record only holds
    [last_modified], set to the clock reading; when its [_id] is a
    non-empty string, the validated record holds that [_id] and then
    the clock reading; when its [_id] is a true value that is not a
    string (a number, [true], a non-empty array or object), the body
    is rejected with the one error of the field [_id]. *)
Theorem validate_without_last_modified request d :
  PyDict.get d "last_modified" = None ->
  (PyDict.get d "_id" = None ->
   validate self request (VDict d)
   = Returns [("last_modified", VInt (now request))])
  /\ (forall s,
         PyDict.get d "_id" = Some (VStr s) -> s <> "" ->
         validate self request (VDict d)
         = Returns [("_id", VStr s); ("last_modified", VInt (now request))])
  /\ (forall c,
         PyDict.get d "_id" = Some c -> PyDict.truthy c = true ->
         (forall s, c <> VStr s) ->
         validate self request (VDict d)
         = Raises (Invalid [("_id", NotAString c)])).
Proof.
  intros Hlm.
  assert (Hstamp : forall st,
             value st = PyDict.remove d "_id" ->
             impl_step (now request) st last_modified
             = Returns {| value := PyDict.remove (value st) "last_modified";
                          error := error st;
                          result := PyDict.set (result st) "last_modified"
                                               (VInt (now request)) |}).
  { intros st Hst.
    unfold impl_step, deserialize, TimeStamp_deserialize,
      SchemaNode_deserialize. cbn -[Integer].
    rewrite Hst, PyDictFacts.get_remove, Hlm. cbn -[Integer].
    now rewrite ColanderFacts.Integer_of_int. }
  split; [|split].
  - intros Hid. first_round. rewrite Hid. cbn [obind].
    rewrite Hstamp by reflexivity. reflexivity.
  - intros s Hid Hne. first_round. rewrite Hid. unfold String_.
    destruct s as [|c s]; [contradiction|]. cbn [PyDict.truthy negb obind].
    cbn [PyStr.is_empty negb]. cbn [obind].
    rewrite Hstamp by reflexivity. reflexivity.
  - intros c Hid Htrue Hc. first_round. rewrite Hid. unfold String_.
    rewrite Htrue. cbn [negb].
    destruct c; try (now destruct (Hc s)); cbn [obind];
      rewrite Hstamp by reflexivity; reflexivity.
Qed.

(** ** X19.  On the base schema the clock only matters for a body
    without [last_modified]: when the body gives a value for it,
    [validate] has the same outcome at every clock reading. *)
Theorem validate_supplied_ignores_clock request1 request2 d v :
  PyDict.get d "last_modified" = Some v ->
  validate self request1 (VDict d) = validate self request2 (VDict d).
Proof.
  intros Hlm. unfold validate, Mapping_deserialize.
  cbn [mapping resource_with app RessourceSchema impl_loop].
  rewrite (step_id_clock (now request1) (now request2)).
  destruct (step_id (now request2)
                    {| value := d; error := None; result := [] |})
    as (st1 & -> & Hv1 & _). cbn [obind value] in *.
  assert (Hstep : impl_step (now request1) st1 last_modified
                  = impl_step (now request2) st1 last_modified).
  { unfold impl_step, deserialize, TimeStamp_deserialize. cbn.
    rewrite Hv1, PyDictFacts.get_remove, Hlm. reflexivity. }
  now rewrite Hstep.
Qed.

End MoreBaseSchemaFacts.

Section EmptyBodyFacts.

Variable json_loads : string -> outcome pyval.
Variable store : Type.
Variable db_create :
  record -> BaseResource -> string -> store -> outcome record * store.
Variable request : Request.

Local Abbreviation self := (resource_with []).

Lemma validate_empty_record :
  validate self request (VDict [])
  = Returns [("last_modified", VInt (now request))].
Proof.
  unfold validate, Colander.Mapping_deserialize.
  cbn -[Colander.Integer Colander.impl_step].
  unfold Colander.impl_step, last_modified, Colander.deserialize,
    Colander.TimeStamp_deserialize, Colander.SchemaNode_deserialize.
  cbn -[Colander.Integer]. rewrite ColanderFacts.Integer_of_int.
  reflexivity.
Qed.

(** ** X20.  An empty body is not an error and is not given to the
    JSON parser: on the base schema [collection_post] creates the
    record that only holds [last_modified], set to the clock reading,
    and returns what the backend returns for it. *)
Theorem collection_post_empty_body (w : world store) created s :
  body request = "" ->
  db_create [("last_modified", VInt (now request))] self
            (authenticated_userid request) (db w)
  = (Returns created, s) ->
  collection_post json_loads db_create self request w
  = (Returns (VDict created),
     {| errors := errors w;
        status := status w;
        db := s;
        self_record := Some created;
        calls := calls w
                 ++ [Create [("last_modified", VInt (now request))]] |}).
Proof.
  intros Hbody Hcreate. run_method. rewrite Hbody.
  cbn -[validate]. rewrite validate_empty_record. cbn.
  rewrite Hcreate. reflexivity.
Qed.

End EmptyBodyFacts.

(* ================================================================== *)
(** * Which end-points touch the response *)
(* ================================================================== *)

Section QuietFacts.

Variable store : Type.

Lemma quiet_ret A (a : A) : quiet (ret (store := store) a).
Proof. intros w. split; reflexivity. Qed.

Lemma quiet_lift A (c : outcome A) : quiet (lift (store := store) c).
Proof. intros w. split; reflexivity. Qed.

Lemma quiet_set_record r : quiet (set_record (store := store) r).
Proof. intros w. split; reflexivity. Qed.

Lemma quiet_db_call A c (op : store -> outcome A * store) :
  quiet (db_call c op).
Proof. intros w. unfold db_call. destruct (op (db w)). split; reflexivity. Qed.

Lemma quiet_bind A B (m : M store A) (k : A -> M store B) :
  quiet m -> (forall a, quiet (k a)) -> quiet (bind m k).
Proof.
  intros Hm Hk w. unfold bind. destruct (Hm w) as [He Hs].
  destruct (m w) as [[a|e] w1]; cbn [snd] in *.
  - destruct (Hk a w1) as [He' Hs']. split; congruence.
  - split; assumption.
Qed.

Lemma extends_errors_refl (w w' : world store) :
  errors w' = errors w -> status w' = status w -> extends_errors w w'.
Proof.
  intros He Hs. split; [exists []; now rewrite app_nil_r|now left].
Qed.

Lemma validates_or_400_extends (view : M store pyval) w :
  quiet view -> extends_errors w (snd (validates_or_400 view w)).
Proof.
  intros Hq. unfold validates_or_400. destruct (Hq w) as [He Hs].
  destruct (view w) as [[v|e] w1]; cbn [snd] in *.
  - now apply extends_errors_refl.
  - destruct e; try now apply extends_errors_refl.
    + cbn. split; [exists [("body", "body", Text msg)]; now rewrite He|].
      right. now left.
    + unfold bind. rewrite add_body_errors_spec. cbn. split.
      * eexists. rewrite He. reflexivity.
      * right. now left.
Qed.

Lemma exists_or_404_extends (view : M store pyval) w :
  (forall w0, extends_errors w0 (snd (view w0))) ->
  (forall w0 msg, fst (view w0) = Raises (RecordNotFoundError msg) ->
                  errors (snd (view w0)) = errors w0
                  /\ status (snd (view w0)) = status w0) ->
  extends_errors w (snd (exists_or_404 view w)).
Proof.
  intros Hext Hraise. unfold exists_or_404.
  pose proof (Hext w) as Hw. pose proof (Hraise w) as Hr.
  destruct (view w) as [[v|e] w1]; cbn [fst snd] in *; [assumption|].
  destruct e; try assumption.
  destruct (Hr msg eq_refl) as [He Hs]. cbn. split.
  - exists [("path", "id", Text msg)]. now rewrite He.
  - right. now right.
Qed.

Lemma validates_or_400_not_found (view : M store pyval) w msg :
  quiet view ->
  fst (validates_or_400 view w) = Raises (RecordNotFoundError msg) ->
  errors (snd (validates_or_400 view w)) = errors w
  /\ status (snd (validates_or_400 view w)) = status w.
Proof.
  intros Hq. unfold validates_or_400. destruct (Hq w) as [He Hs].
  destruct (view w) as [[v|e] w1]; cbn [fst snd] in *; [discriminate|].
  destruct e; cbn; try discriminate.
  - unfold bind. rewrite add_body_errors_spec. discriminate.
  - intros _. now split.
Qed.

Lemma quiet_extends (view : M store pyval) :
  quiet view -> forall w, extends_errors w (snd (view w)).
Proof.
  intros Hq w. destruct (Hq w). now apply extends_errors_refl.
Qed.

Lemma quiet_not_found (view : M store pyval) w msg :
  quiet view ->
  fst (view w) = Raises (RecordNotFoundError msg) ->
  errors (snd (view w)) = errors w /\ status (snd (view w)) = status w.
Proof. intros Hq _. apply Hq. Qed.

End QuietFacts.

Section ResponseFacts.

Variable literal_text : string -> outcome pyval.
Variable json_loads : string -> outcome pyval.
Variable store : Type.
Variable db_get_all :
  list filter -> list sort_directive -> BaseResource -> string ->
  store -> outcome (list record) * store.
Variable db_get :
  string -> BaseResource -> string -> store -> outcome record * store.
Variable db_create :
  record -> BaseResource -> string -> store -> outcome record * store.
Variable db_update :
  string -> record -> BaseResource -> string -> store ->
  outcome record * store.
Variable db_delete :
  string -> BaseResource -> string -> store -> outcome record * store.
Variable self : BaseResource.
Variable request : Request.

Ltac quiet_view :=
  repeat first
    [ apply quiet_bind; [|intros ?]
    | apply quiet_lift
    | apply quiet_db_call
    | apply quiet_set_record
    | apply quiet_ret ].

(** ** X21.  No end-point removes or changes an error entry recorded
    before it ran, and none sets a status other than 400 and 404;
    [collection_get] does not touch the errors and the status at
    all. *)
Theorem end_points_extend_errors (w : world store) :
  quiet (collection_get literal_text db_get_all self request)
  /\ extends_errors
       w (snd (collection_post json_loads db_create self request w))
  /\ extends_errors w (snd (get db_get self request w))
  /\ extends_errors w (snd (put json_loads db_update self request w))
  /\ extends_errors
       w (snd (patch json_loads db_get db_update self request w))
  /\ extends_errors w (snd (delete db_delete self request w)).
Proof.
  assert (Hone : forall view : M store pyval,
             quiet view -> extends_errors w (snd (exists_or_404 view w))).
  { intros view Hq. apply exists_or_404_extends.
    - now apply quiet_extends.
    - intros w0 msg. now apply quiet_not_found. }
  assert (Htwo : forall view : M store pyval,
             quiet view ->
             extends_errors
               w (snd (exists_or_404 (validates_or_400 view) w))).
  { intros view Hq. apply exists_or_404_extends.
    - intros w0. now apply validates_or_400_extends.
    - intros w0 msg. now apply validates_or_400_not_found. }
  split; [|split; [|split; [|split; [|split]]]].
  - unfold collection_get. quiet_view.
  - unfold collection_post. apply validates_or_400_extends. quiet_view.
  - unfold get. apply Hone. cbv zeta. quiet_view.
  - unfold put. apply Htwo. cbv zeta. quiet_view.
  - unfold patch. apply Htwo. cbv zeta. quiet_view.
  - unfold delete. apply Hone. cbv zeta. quiet_view.
Qed.

End ResponseFacts.

(* ================================================================== *)
(** * Properties of the hello view *)
(* ================================================================== *)

Module HelloFacts.

Import Colander Hello.

Lemma lstrip_lstrip s : lstrip (lstrip s) = lstrip s.
Proof.
  induction s as [|c r IH]; simpl; [reflexivity|].
  destruct (PyStr.is_space c) eqn:E; [exact IH|]. simpl. now rewrite E.
Qed.

Lemma rstrip_rstrip s : rstrip (rstrip s) = rstrip s.
Proof.
  induction s as [|c r IH]; simpl; [reflexivity|].
  destruct (PyStr.is_empty (rstrip r) && PyStr.is_space c) eqn:E;
    [reflexivity|].
  simpl. now rewrite IH, E.
Qed.

Lemma rstrip_lstrip s : rstrip (lstrip s) = lstrip (rstrip s).
Proof.
  induction s as [|c r IH]; simpl; [reflexivity|].
  destruct (PyStr.is_space c) eqn:E.
  - rewrite andb_true_r. destruct (PyStr.is_empty (rstrip r)) eqn:Hr.
    + rewrite IH. destruct (rstrip r); [reflexivity|discriminate].
    + simpl. now rewrite E.
  - rewrite andb_false_r. simpl. rewrite E, andb_false_r. reflexivity.
Qed.

Lemma strip_strip s : strip (strip s) = strip s.
Proof.
  unfold strip.
  now rewrite rstrip_lstrip, lstrip_lstrip, rstrip_rstrip.
Qed.

Lemma rstrip_all_space s : all_space s = true -> rstrip s = "".
Proof.
  induction s as [|c r IH]; simpl; [reflexivity|].
  intros H. apply andb_prop in H. destruct H as [Hc Hr].
  now rewrite (IH Hr), Hc.
Qed.

Lemma all_space_app a b :
  all_space (a ++ b) = all_space a && all_space b.
Proof.
  induction a as [|c r IH]; simpl; [reflexivity|].
  now rewrite IH, andb_assoc.
Qed.

Lemma strip_append_assoc (a b c : string) : ((a ++ b) ++ c = a ++ b ++ c)%string.
Proof. induction a as [|x r IH]; simpl; [reflexivity|now rewrite IH]. Qed.

Lemma strip_append_nil_r (a : string) : (a ++ "" = a)%string.
Proof. induction a as [|x r IH]; simpl; [reflexivity|now rewrite IH]. Qed.

Lemma strip_length_append (a b : string) :
  String.length (a ++ b) = (String.length a + String.length b)%nat.
Proof. induction a as [|x r IH]; simpl; [reflexivity|now rewrite IH]. Qed.

Lemma length_zero (a : string) : String.length a = 0%nat -> a = "".
Proof. destruct a; [reflexivity|discriminate]. Qed.

(** What [lstrip] removes is a run of blanks in front. *)
Lemma lstrip_decompose s :
  exists before, (s = before ++ lstrip s)%string /\ all_space before = true.
Proof.
  induction s as [|c r (before & IH & Hb)]; simpl.
  - now exists "".
  - destruct (PyStr.is_space c) eqn:E.
    + exists (String c before). simpl. rewrite E, Hb. now rewrite <- IH.
    + now exists "".
Qed.

(** What [rstrip] removes is a run of blanks at the end. *)
Lemma rstrip_decompose s :
  exists after, (s = rstrip s ++ after)%string /\ all_space after = true.
Proof.
  induction s as [|c r (after & IH & Ha)]; simpl.
  - now exists "".
  - destruct (PyStr.is_empty (rstrip r) && PyStr.is_space c) eqn:E.
    + apply andb_prop in E. destruct E as [Hr Hc].
      destruct (rstrip r); [|discriminate]. simpl in IH. subst r.
      exists (String c after). simpl. now rewrite Hc, Ha.
    + exists after. simpl. now rewrite <- IH.
Qed.

Lemma strip_decompose s :
  exists before after,
    (s = before ++ strip s ++ after)%string
    /\ all_space before = true /\ all_space after = true.
Proof.
  destruct (rstrip_decompose s) as (after & Hs & Ha).
  destruct (lstrip_decompose (rstrip s)) as (before & Hr & Hb).
  exists before, after. repeat split; [|assumption|assumption].
  unfold strip. rewrite <- strip_append_assoc, <- Hr. exact Hs.
Qed.

Lemma lstrip_blanks before x :
  all_space before = true -> lstrip (before ++ x) = lstrip x.
Proof.
  induction before as [|c r IH]; simpl; [reflexivity|].
  intros H. apply andb_prop in H. destruct H as [Hc Hr].
  rewrite Hc. now apply IH.
Qed.

Lemma rstrip_blanks x after :
  all_space after = true -> rstrip (x ++ after) = rstrip x.
Proof.
  intros Ha. induction x as [|c r IH]; simpl.
  - now apply rstrip_all_space.
  - now rewrite IH.
Qed.

Lemma rstrip_behind before y :
  rstrip y <> "" -> (rstrip (before ++ y) = before ++ rstrip y)%string.
Proof.
  intros Hy. induction before as [|c r IH]; simpl; [reflexivity|].
  rewrite IH. destruct (r ++ rstrip y)%string eqn:E; [|reflexivity].
  destruct r; simpl in E; [contradiction|discriminate].
Qed.

(** Text that [strip] leaves alone has a blank at neither end. *)
Lemma strip_fixed e : strip e = e -> rstrip e = e /\ lstrip e = e.
Proof.
  intros He.
  destruct (rstrip_decompose e) as (after & Hs & Ha).
  destruct (lstrip_decompose (rstrip e)) as (before & Hr & Hb).
  fold (strip e) in Hr. rewrite He in Hr.
  assert (Hlen : String.length e
                 = (String.length before + String.length e
                    + String.length after)%nat).
  { rewrite Hs at 1. rewrite Hr at 1. now rewrite !strip_length_append. }
  assert (Hbefore : before = "") by (apply length_zero; lia).
  subst before. simpl in Hr. split; [exact Hr|].
  rewrite <- Hr at 1. exact He.
Qed.

(** [strip] finds the text between the blanks. *)
Lemma strip_between before e after :
  all_space before = true -> all_space after = true ->
  e <> "" -> strip e = e ->
  strip (before ++ e ++ after) = e.
Proof.
  intros Hb Ha Hne He. destruct (@strip_fixed e He) as [Hr Hl].
  unfold strip. rewrite rstrip_behind.
  - rewrite (@rstrip_blanks e after Ha), Hr, (@lstrip_blanks before e Hb).
    exact Hl.
  - rewrite (@rstrip_blanks e after Ha), Hr. exact Hne.
Qed.

End HelloFacts.

(** ** X22.  For a [readinglist.eos] setting of plain text (or no
    setting, which stands for the empty text), [get_eos] gives the
    text between the blanks around it: it returns [eos] exactly when
    [eos] is not empty, has a blank at neither end, and the setting is
    [eos] between two runs of blanks; it returns [None] exactly when
    the setting is made of blanks only. *)
Theorem get_eos_stripped (request : Hello.Request) (setting : string) :
  Hello.settings_get (Hello.settings request) "readinglist.eos" "" = setting ->
  PyStr.plain setting = true ->
  (forall eos,
      Hello.get_eos request = Some eos
      <-> eos <> "" /\ Hello.strip eos = eos
          /\ exists before after,
               (setting = before ++ eos ++ after)%string
               /\ all_space before = true /\ all_space after = true)
  /\ (Hello.get_eos request = None <-> all_space setting = true).
Proof.
  intros Hsetting _. unfold Hello.get_eos. rewrite Hsetting.
  destruct (HelloFacts.strip_decompose setting)
    as (before & after & Hs & Hb & Ha).
  split.
  - intros eos. split.
    + destruct (Hello.strip setting) as [|c r] eqn:Hstrip;
        cbn [PyStr.is_empty]; [discriminate|].
      intros [= <-]. split; [discriminate|]. split.
      * rewrite <- Hstrip. apply HelloFacts.strip_strip.
      * now exists before, after.
    + intros (Hne & Hfixed & b & a & -> & Hb' & Ha').
      rewrite (@HelloFacts.strip_between b eos a Hb' Ha' Hne Hfixed).
      destruct eos; [contradiction|reflexivity].
  - split.
    + destruct (Hello.strip setting) as [|c r] eqn:Hstrip;
        cbn [PyStr.is_empty]; [|discriminate].
      intros _. rewrite Hs. simpl.
      now rewrite HelloFacts.all_space_app, Hb, Ha.
    + intros Hblank. unfold Hello.strip.
      now rewrite (HelloFacts.rstrip_all_space _ Hblank).
Qed.

(** X22 for a date between two blanks and for two blanks. *)
Lemma get_eos_stripped_witness :
  Hello.get_eos (hello_request " 2015-06-01 ") = Some "2015-06-01"
  /\ Hello.get_eos (hello_request "  ") = None.
Proof.
  split.
  - apply (proj1 (@get_eos_stripped (hello_request " 2015-06-01 ")
                    " 2015-06-01 " eq_refl eq_refl) "2015-06-01").
    split; [discriminate|]. split; [reflexivity|].
    exists " ", " ". repeat split.
  - apply (proj2 (@get_eos_stripped (hello_request "  ")
                    "  " eq_refl eq_refl)).
    reflexivity.
Defined.

(** ** X23.  [get_hello] always answers with the four keys [hello],
    [version], [url] (the host of the request) and [documentation]; it
    has the key [eos] exactly when [get_eos] gives a value, and then
    with that value. *)
Theorem get_hello_keys (VERSION : string) (request : Hello.Request) :
  let data := Hello.get_hello VERSION request in
  PyDict.get data "hello" = Some (VStr "readinglist")
  /\ PyDict.get data "version" = Some (VStr VERSION)
  /\ PyDict.get data "url" = Some (VStr (Hello.host_url request))
  /\ PyDict.get data "documentation"
     = Some (VStr "https://readinglist.rtfd.org/")
  /\ PyDict.get data "eos" = option_map VStr (Hello.get_eos request)
  /\ List.length data
     = match Hello.get_eos request with Some _ => 5%nat | None => 4%nat end.
Proof.
  unfold Hello.get_hello.
  destruct (Hello.get_eos request) as [eos|]; repeat split.
Qed.

(* ================================================================== *)
(** * The further properties at concrete requests *)
(* ================================================================== *)

(** X8 for a patch whose body is a JSON array: the [TypeError] it
    raises is none of the mapped exceptions. *)
Lemma end_points_never_raise_mapped_witness :
  (forall msg,
      TypeError "argument after ** must be a mapping" <> ValueError msg)
  /\ (forall d, TypeError "argument after ** must be a mapping" <> Invalid d)
  /\ (forall msg, TypeError "argument after ** must be a mapping"
                  <> RecordNotFoundError msg).
Proof.
  apply (proj1 (@end_points_never_raise_mapped
                  Json.loads Memory.store Memory.get Memory.create
                  Memory.update Memory.delete plain_resource
                  (request_of "[]" "0" 1000) one_record_world)
               (TypeError "argument after ** must be a mapping")).
  right. reflexivity.
Defined.

(** X10 for a listing with a filter on [_id] and on [since]. *)
Lemma collection_get_lists_witness :
  collection_get Literal.literal_text Memory.get_all plain_resource
                 list_request one_record_world
  = (Returns (VDict [("items",
                      VList [VDict [("last_modified", VInt 1000);
                                    ("_id", VStr "0")]]);
                     ("meta", VDict [("total", VInt 1)])]),
     {| errors := [];
        status := None;
        db := db one_record_world;
        self_record := self_record one_record_world;
        calls := calls one_record_world
                 ++ [GetAll [("_id", VStr "abc", "==");
                             ("last_modified", VInt 100, ">=")]
                            [("title", 1%Z)]] |}).
Proof.
  apply (proj1 (@collection_get_lists
                  Literal.literal_text Memory.store Memory.get_all
                  plain_resource list_request one_record_world)
               [("_id", VStr "abc", "=="); ("last_modified", VInt 100, ">=")]
               [[("last_modified", VInt 1000); ("_id", VStr "0")]]
               (db one_record_world));
    reflexivity.
Defined.

(** X11 for a backend whose [create] raises a [ValueError]. *)
Lemma collection_post_backend_value_error_witness :
  collection_post Json.loads (failing_create (ValueError "read-only"))
                  plain_resource (request_of "" "" 1000)
                  (fresh_world Memory.empty)
  = (Returns VNone,
     {| errors := [("body", "body", Text "read-only")];
        status := Some "400 Bad Request";
        db := Memory.empty;
        self_record := None;
        calls := [Create [("last_modified", VInt 1000)]] |}).
Proof.
  apply (@collection_post_backend_value_error
           Json.loads Memory.store (failing_create (ValueError "read-only"))
           plain_resource (request_of "" "" 1000) (fresh_world Memory.empty)
           (VDict []) [("last_modified", VInt 1000)] "read-only"
           Memory.empty);
    reflexivity.
Defined.

(** X12 for the record of id 0 and for the absent id 7. *)
Lemma delete_record_or_404_witness :
  delete Memory.delete plain_resource (request_of "" "0" 1000)
         one_record_world
  = (Returns (VDict [("last_modified", VInt 1000); ("_id", VStr "0")]),
     {| errors := [];
        status := None;
        db := {| Memory.records := []; Memory.counter := 1 |};
        self_record := Some [("last_modified", VInt 1000); ("_id", VStr "0")];
        calls := calls one_record_world ++ [Delete "0"] |})
  /\ delete Memory.delete plain_resource (request_of "" "7" 1000)
            one_record_world
     = (Returns VNone,
        {| errors := [("path", "id", Text "7")];
           status := Some "404 Resource Not Found";
           db := db one_record_world;
           self_record := self_record one_record_world;
           calls := calls one_record_world ++ [Delete "7"] |}).
Proof.
  split.
  - apply (proj1 (@delete_record_or_404
                    Memory.store Memory.delete plain_resource
                    (request_of "" "0" 1000) one_record_world)
                 [("last_modified", VInt 1000); ("_id", VStr "0")]
                 {| Memory.records := []; Memory.counter := 1 |}).
    reflexivity.
  - apply (proj2 (@delete_record_or_404
                    Memory.store Memory.delete plain_resource
                    (request_of "" "7" 1000) one_record_world)
                 "7" (db one_record_world)).
    reflexivity.
Defined.

(** X13 for a patch of the absent id 7. *)
Lemma patch_not_found_witness :
  patch Json.loads Memory.get Memory.update plain_resource
        (request_of "[]" "7" 1000) one_record_world
  = (Returns VNone,
     {| errors := [("path", "id", Text "7")];
        status := Some "404 Resource Not Found";
        db := db one_record_world;
        self_record := self_record one_record_world;
        calls := calls one_record_world ++ [Get "7"] |}).
Proof.
  apply (@patch_not_found
           Json.loads Memory.store Memory.get Memory.update plain_resource
           (request_of "[]" "7" 1000) one_record_world "7"
           (db one_record_world)).
  reflexivity.
Defined.

(** X14 for a patch of the record of id 0 whose body is an empty JSON
    array. *)
Lemma patch_body_not_an_object_witness :
  exists msg,
    patch Json.loads Memory.get Memory.update plain_resource
          (request_of "[]" "0" 1000) one_record_world
    = (Raises (TypeError msg),
       {| errors := [];
          status := None;
          db := db one_record_world;
          self_record :=
            Some [("last_modified", VInt 1000); ("_id", VStr "0")];
          calls := calls one_record_world ++ [Get "0"] |}).
Proof.
  apply (@patch_body_not_an_object
           Json.loads Memory.store Memory.get Memory.update plain_resource
           (request_of "[]" "0" 1000) one_record_world
           [("last_modified", VInt 1000); ("_id", VStr "0")]
           (db one_record_world) (VList [])).
  - reflexivity.
  - reflexivity.
  - discriminate.
Defined.

(** X15 for a put whose [last_modified] is not a number, and for a
    backend whose [update] does not find the record. *)
Lemma put_rejects_or_404_witness :
  put Json.loads Memory.update plain_resource
      (request_of (json_object "last_modified" (Json.quoted "abc")) "0" 1000)
      one_record_world
  = (Returns VNone,
     {| errors := [("body", "last_modified", NotANumber (VStr "abc"))];
        status := Some "400 Bad Request";
        db := db one_record_world;
        self_record := self_record one_record_world;
        calls := calls one_record_world |})
  /\ put Json.loads (failing_update (RecordNotFoundError "7")) plain_resource
         (request_of "" "7" 1000) one_record_world
     = (Returns VNone,
        {| errors := [("path", "id", Text "7")];
           status := Some "404 Resource Not Found";
           db := db one_record_world;
           self_record := self_record one_record_world;
           calls := calls one_record_world
                    ++ [Update "7" [("last_modified", VInt 1000)]] |}).
Proof.
  split.
  - apply (proj1 (@put_rejects_or_404
                    Json.loads Memory.store Memory.update plain_resource
                    (request_of (json_object "last_modified"
                                             (Json.quoted "abc")) "0" 1000)
                    one_record_world
                    (VDict [("last_modified", VStr "abc")]) eq_refl)
                 [("last_modified", NotANumber (VStr "abc"))]).
    reflexivity.
  - apply (proj2 (@put_rejects_or_404
                    Json.loads Memory.store
                    (failing_update (RecordNotFoundError "7"))
                    plain_resource (request_of "" "7" 1000)
                    one_record_world (VDict []) eq_refl)
                 [("last_modified", VInt 1000)] "7" (db one_record_world));
      reflexivity.
Defined.

(** X16 for the body [1]. *)
Lemma post_and_put_body_not_an_object_witness :
  collection_post Json.loads Memory.create plain_resource
                  (request_of "1" "0" 1000) one_record_world
  = (Returns VNone,
     {| errors := [("body", "", NotAMapping (VInt 1))];
        status := Some "400 Bad Request";
        db := db one_record_world;
        self_record := self_record one_record_world;
        calls := calls one_record_world |})
  /\ put Json.loads Memory.update plain_resource
         (request_of "1" "0" 1000) one_record_world
     = (Returns VNone,
        {| errors := [("body", "", NotAMapping (VInt 1))];
           status := Some "400 Bad Request";
           db := db one_record_world;
           self_record := self_record one_record_world;
           calls := calls one_record_world |}).
Proof.
  apply (@post_and_put_body_not_an_object
           Json.loads Memory.store Memory.create Memory.update
           plain_resource (request_of "1" "0" 1000) one_record_world
           (VInt 1)).
  - reflexivity.
  - discriminate.
Defined.

(** X17 for a body made of the single byte 255. *)
Lemma post_and_put_body_not_utf8_witness :
  exists msg,
    let answer :=
      (Returns VNone,
       {| errors := errors one_record_world ++ [("body", "body", Text msg)];
          status := Some "400 Bad Request";
          db := db one_record_world;
          self_record := self_record one_record_world;
          calls := calls one_record_world |}) in
    collection_post Json.loads Memory.create plain_resource
                    (request_of (String "255" "") "0" 1000) one_record_world
    = answer
    /\ put Json.loads Memory.update plain_resource
           (request_of (String "255" "") "0" 1000) one_record_world
       = answer.
Proof.
  apply (@post_and_put_body_not_utf8
           Json.loads Memory.store Memory.create Memory.update
           plain_resource (request_of (String "255" "") "0" 1000)
           one_record_world).
  reflexivity.
Defined.

(** X18 for a body whose [_id] is a string and for one whose [_id] is
    the number 7, each with an undeclared field. *)
Lemma validate_without_last_modified_witness :
  validate plain_resource (request_of "" "" 2000)
           (VDict [("_id", VStr "abc"); ("title", VInt 3)])
  = Returns [("_id", VStr "abc"); ("last_modified", VInt 2000)]
  /\ validate plain_resource (request_of "" "" 2000)
              (VDict [("title", VInt 3); ("_id", VInt 7)])
     = Raises (Invalid [("_id", NotAString (VInt 7))]).
Proof.
  split.
  - apply (proj1 (proj2 (@validate_without_last_modified
                           (request_of "" "" 2000)
                           [("_id", VStr "abc"); ("title", VInt 3)]
                           eq_refl)));
      [reflexivity|discriminate].
  - apply (proj2 (proj2 (@validate_without_last_modified
                           (request_of "" "" 2000)
                           [("title", VInt 3); ("_id", VInt 7)]
                           eq_refl)));
      [reflexivity|reflexivity|discriminate].
Defined.

(** X19 for a body that gives [last_modified] 5, at the seconds 1000
    and 2000. *)
Lemma validate_supplied_ignores_clock_witness :
  validate plain_resource (request_of "" "" 1000)
           (VDict [("last_modified", VInt 5)])
  = validate plain_resource (request_of "" "" 2000)
             (VDict [("last_modified", VInt 5)]).
Proof.
  apply (@validate_supplied_ignores_clock
           (request_of "" "" 1000) (request_of "" "" 2000)
           [("last_modified", VInt 5)] (VInt 5)).
  reflexivity.
Defined.

(** X20 for a post with an empty body at second 2000. *)
Lemma collection_post_empty_body_witness :
  collection_post Json.loads Memory.create plain_resource
                  (request_of "" "" 2000) one_record_world
  = (Returns (VDict [("last_modified", VInt 2000); ("_id", VStr "1")]),
     {| errors := [];
        status := None;
        db := {| Memory.records :=
                   [("0", [("last_modified", VInt 1000); ("_id", VStr "0")]);
                    ("1", [("last_modified", VInt 2000); ("_id", VStr "1")])];
                 Memory.counter := 2 |};
        self_record := Some [("last_modified", VInt 2000); ("_id", VStr "1")];
        calls := calls one_record_world
                 ++ [Create [("last_modified", VInt 2000)]] |}).
Proof.
  apply (@collection_post_empty_body
           Json.loads Memory.store Memory.create
           (request_of "" "" 2000) one_record_world
           [("last_modified", VInt 2000); ("_id", VStr "1")]
           {| Memory.records :=
                [("0", [("last_modified", VInt 1000); ("_id", VStr "0")]);
                 ("1", [("last_modified", VInt 2000); ("_id", VStr "1")])];
              Memory.counter := 2 |});
    reflexivity.
Defined.

Section ParameterFacts.

Variable literal_text : string -> outcome pyval.
Variable known : list string.
Variable modified : string.

Local Abbreviation decode := (__decode_filter_value literal_text).
Local Abbreviation extract := (_extract_filters literal_text known modified).

(** ** X24.  Between the filters of the parameters before it and of
    those after it, a parameter named after a known field other than
    [since] contributes the one equality filter on that field, with
    the decoded value; the parameter [since], when [since] is not a
    known field, contributes the one lower bound on the modification
    field. *)
Theorem extract_filters_one_filter before param raw after v fs1 fs2 :
  decode raw = Returns v ->
  extract before = Returns fs1 ->
  extract after = Returns fs2 ->
  (PyStr.mem param known = true -> param <> "since" ->
   extract (before ++ (param, raw) :: after)
   = Returns (fs1 ++ [(param, v, "==")] ++ fs2))
  /\ (PyStr.mem "since" known = false ->
      extract (before ++ ("since", raw) :: after)
      = Returns (fs1 ++ [(modified, v, ">=")] ++ fs2)).
Proof.
  intros Hraw H1 H2. split.
  - intros Hknown Hsince. apply String.eqb_neq in Hsince.
    rewrite extract_app, H1, extract_cons, Hraw, H2. simpl.
    unfold param_filters, append_filters. now rewrite Hknown, Hsince.
  - intros Hknown.
    rewrite extract_app, H1, extract_cons, Hraw, H2. simpl.
    unfold param_filters, append_filters. now rewrite Hknown.
Qed.

End ParameterFacts.

(** X24 for the queries [sort=x&foo=yes&since=5] and
    [sort=x&since=100&foo=yes]. *)
Lemma extract_filters_one_filter_witness :
  _extract_filters Literal.literal_text foo_fields "last_modified"
                   ([("sort", "x")] ++ ("foo", "yes") :: [("since", "5")])
  = Returns ([] ++ [("foo", VBool true, "==")]
                ++ [("last_modified", VInt 5, ">=")])
  /\ _extract_filters Literal.literal_text foo_fields "last_modified"
                      ([("sort", "x")] ++ ("since", "100") :: [("foo", "yes")])
     = Returns ([] ++ [("last_modified", VInt 100, ">=")]
                   ++ [("foo", VBool true, "==")]).
Proof.
  split.
  - apply (proj1 (@extract_filters_one_filter
                    Literal.literal_text foo_fields "last_modified"
                    [("sort", "x")] "foo" "yes" [("since", "5")]
                    (VBool true) [] [("last_modified", VInt 5, ">=")]
                    eq_refl eq_refl eq_refl));
      [reflexivity|discriminate].
  - apply (proj2 (@extract_filters_one_filter
                    Literal.literal_text foo_fields "last_modified"
                    [("sort", "x")] "since" "100" [("foo", "yes")]
                    (VInt 100) [] [("foo", VBool true, "==")]
                    eq_refl eq_refl eq_refl)).
    reflexivity.
Defined.

Section ListingFacts.

Variable literal_text : string -> outcome pyval.
Variable store : Type.
Variable db_get_all :
  list filter -> list sort_directive -> BaseResource -> string ->
  store -> outcome (list record) * store.
Variable self : BaseResource.
Variable request : Request.

(** ** X25.  [collection_get] decodes the value of every parameter of
    the query, also of one that is no filter (such as [sort]): when the
    parser raises an exception other than [ValueError] on one of them,
    the listing raises it, and the backend is not called. *)
Theorem collection_get_decodes_every_parameter
        (w : world store) before param raw after fs e :
  GET request = before ++ (param, raw) :: after ->
  _extract_filters literal_text (known_fields self) (modified_field self)
                   before = Returns fs ->
  not_a_token raw ->
  literal_text raw = Raises e ->
  (forall msg, e <> ValueError msg) ->
  collection_get literal_text db_get_all self request w = (Raises e, w).
Proof.
  intros Hget Hbefore Htoken Hraw He.
  unfold collection_get, bind, lift. rewrite Hget.
  now rewrite (@extract_other_error
                 literal_text (known_fields self) (modified_field self)
                 before param raw after fs e Hbefore Htoken Hraw He).
Qed.

End ListingFacts.

(** X25 for the query [foo=1&sort=title desc]. *)
Lemma collection_get_decodes_every_parameter_witness :
  collection_get Literal.literal_text Memory.get_all plain_resource
                 {| GET := [("foo", "1")] ++ ("sort", "title desc") :: [];
                    body := "";
                    matchdict_id := "";
                    authenticated_userid := "alice";
                    now := 1000 |}
                 one_record_world
  = (Raises (SyntaxError "invalid syntax"), one_record_world).
Proof.
  apply (@collection_get_decodes_every_parameter
           Literal.literal_text Memory.store Memory.get_all plain_resource
           {| GET := [("foo", "1")] ++ ("sort", "title desc") :: [];
              body := "";
              matchdict_id := "";
              authenticated_userid := "alice";
              now := 1000 |}
           one_record_world [("foo", "1")] "sort" "title desc" [] []
           (SyntaxError "invalid syntax")).
  - reflexivity.
  - reflexivity.
  - reflexivity.
  - reflexivity.
  - discriminate.
Defined.

(** ** X26.  What the pattern of [_extract_sorting] does with a token of
    plain text (ASCII without the separators 0x1c to 0x1f), without
    the search: after at most one blank and at most one sign, the
    letters, digits and underscores that follow are the field,
    whatever comes after them; a token without such a character at
    that place adds nothing.  The direction is -1 for the sign [-] and
    1 otherwise. *)
Theorem sort_token_directive sorting field :
  PyStr.plain field = true ->
  append_sorting sorting field
  = sorting
    ++ match SortPattern.scan field with
       | Some [order; w] =>
           [(w, if String.eqb order "-" then (-1)%Z else 1%Z)]
       | _ => []
       end.
Proof.
  intros _. rewrite SortingFacts.append_sorting_app.
  now rewrite SortingFacts.append_sorting_scan.
Qed.

(** X26 for a token with a blank, a sign, a name and a second word,
    behind one directive. *)
Lemma sort_token_directive_witness :
  append_sorting [("a", 1%Z)] " -title desc"
  = [("a", 1%Z); ("title", (-1)%Z)].
Proof.
  apply (@sort_token_directive [("a", 1%Z)] " -title desc").
  reflexivity.
Defined.
